(** * TexText: preamble normalisation, the GTK3 dialog and the
      compatibility harness

    A shallow embedding of the parts of the TexText sources that the
    specification talks about:

    - [Preamble]: the fixtures of [v2/pytests/test_converter.py] and the
      normaliser they exercise ([TexToPdfConverter._remove_documentclass]);
    - [Gui]: [TexTextGuiBase.__init__] and the widget updates of
      [TexTextGuiGTK3.show] from [textext/gui/gui_gtk3.py];
    - [Harness]: [TempDirectory], [svg_to_png], [images_are_same] and the
      render-option selection of [is_current_version_compatible] from
      [pytests/test_compatibility.py].

    Python [int] is [Z], Python [str] is [string], Python [float] is an
    IEEE 754 binary64 value ([spec_float] at precision 53), dictionaries
    are [gmap]s, and exceptions are the left summand of a result type. *)

From Stdlib Require Import ZArith Lia Bool Ascii String.
From Stdlib Require Import Floats.SpecFloat.
From stdpp Require Import base option list strings gmap pretty.

Local Open Scope string_scope.
Set Warnings "-register-all".

(* ===================================================================== *)
(** * Python values shared by the modules below *)
(* ===================================================================== *)

Module Py.

(** ** [float]: IEEE 754 binary64 *)

Definition prec : Z := 53.
Definition emax : Z := 1024.
Definition float : Type := spec_float.

(** Values produced by [json.load]. *)
Inductive json :=
  | JNull
  | JBool (b : bool)
  | JInt (z : Z)
  | JFloat (f : float)
  | JStr (s : string)
  | JArr (l : list json)
  | JObj (m : gmap string json).

(** Truth value of an object in a condition. *)
Definition truthy (v : json) : bool :=
  match v with
  | JNull => false
  | JBool b => b
  | JInt z => negb (z =? 0)%Z
  | JFloat f =>
      match f with
      | S754_zero _ => false
      | _ => true
      end
  | JStr s => negb (String.eqb s "")
  | JArr l =>
      match l with
      | [] => false
      | _ => true
      end
  | JObj m => negb (bool_decide (m = ∅))
  end.

(** The exceptions the modelled code can raise.  [RuntimeError] carries
    its format string and the value the string is filled with. *)
Inductive exn :=
  | AssertionError
  | KeyError (key : string)
  | TypeError
  | ValueError
  | OverflowError
  | RuntimeError (format : string) (arg : json)
  | FileNotFoundError (path : string).

(** A computation that returns or raises. *)
Definition result (A : Type) : Type := exn + A.

Definition ret {A} (a : A) : result A := inr a.
Definition raise {A} (e : exn) : result A := inl e.
Definition bind {A B} (r : result A) (k : A -> result B) : result B :=
  match r with
  | inl e => inl e
  | inr a => k a
  end.

(** [assert b]. *)
Definition assert (b : bool) : result unit :=
  if b then ret tt else raise AssertionError.

Definition fmul : float -> float -> float := SFmul prec emax.
Definition fdiv : float -> float -> float := SFdiv prec emax.

(** Conversion of an [int], rounding to nearest even; the value is an
    infinity exactly when CPython raises [OverflowError]. *)
Definition round_of_Z (z : Z) : float := binary_normalize prec emax z 0 false.

Definition float_of_Z (z : Z) : result float :=
  match round_of_Z z with
  | S754_infinity _ => raise OverflowError
  | f => ret f
  end.

(** [i * f] with [i : int] and [f : float]. *)
Definition int_mul_float (i : Z) (f : float) : result float :=
  bind (float_of_Z i) (fun fi => ret (fmul fi f)).

(** The correctly rounded value of the decimal literal [n / d]. *)
Definition literal (n d : Z) : float := fdiv (round_of_Z n) (round_of_Z d).

(** Comparison of an [int] with a [float]: CPython compares the exact
    values, and every comparison with a NaN is false. *)
Definition Z_compare_float (z : Z) (f : float) : option comparison :=
  match f with
  | S754_nan => None
  | S754_infinity s => Some (if s then Gt else Lt)
  | S754_zero _ => Some (z ?= 0)%Z
  | S754_finite s m e =>
      let v := if s then Zneg m else Zpos m in
      Some (if (0 <=? e)%Z then (z ?= v * 2 ^ e)%Z
            else (z * 2 ^ (- e) ?= v)%Z)
  end.

Definition Z_gt_float (z : Z) (f : float) : bool :=
  match Z_compare_float z f with
  | Some Gt => true
  | _ => false
  end.

(** A float that is not below zero: a NaN, a zero of either sign, or
    anything with a clear sign bit. *)
Definition not_negative (f : float) : bool :=
  match f with
  | S754_nan | S754_zero _ => true
  | S754_infinity s | S754_finite s _ _ => negb s
  end.

(** [list.index]: the position of the first equal element. *)
Fixpoint index (x : string) (l : list string) : result nat :=
  match l with
  | [] => raise ValueError
  | y :: l' =>
      if String.eqb y x then ret O
      else bind (index x l') (fun i => ret (S i))
  end.

End Py.

Notation "'let*' x ':=' c 'in' k" := (Py.bind c (fun x => k))
  (at level 10, x pattern, c at level 100, k at level 200).

(* ===================================================================== *)
(** * Preamble normalisation *)
(* ===================================================================== *)

Module Preamble.

(** The line terminator of the triple-quoted Python literals. *)
Definition nl : string := String (ascii_of_nat 10) EmptyString.

(** ** The fixtures of [test_converter.py], character for character. *)

Definition preamble_0 : string :=
  "\documentclass[10pt]{article}" +:+ nl +:+
  "\usepackage{amsmath}" +:+ nl.

Definition preamble_0_result : string :=
  "\usepackage{amsmath}" +:+ nl.

Definition preamble_1 : string :=
  "\documentclass[10pt]" +:+ nl +:+
  "{article}" +:+ nl +:+
  "\usepackage{amsmath}" +:+ nl.

Definition preamble_1_result : string :=
  "\usepackage{amsmath}" +:+ nl.

Definition preamble_2 : string :=
  "\documentclass[10pt]" +:+ nl +:+
  "{article" +:+ nl +:+
  "}" +:+ nl +:+
  "\usepackage{amsmath}" +:+ nl.

Definition preamble_2_result : string :=
  "\usepackage{amsmath}" +:+ nl.

Definition preamble_3 : string :=
  nl +:+
  "   \documentclass[10pt]" +:+ nl +:+
  "{article}" +:+ nl +:+
  "\usepackage{amsmath}" +:+ nl.

Definition preamble_3_result : string :=
  "   " +:+ nl +:+
  "   \usepackage{amsmath}" +:+ nl.

Definition preamble_4 : string :=
  "\documentstyle[10pt]{article}" +:+ nl +:+
  "\usepackage{amsmath}" +:+ nl.

Definition preamble_4_result : string :=
  "\usepackage{amsmath}" +:+ nl.

Definition preamble_5 : string :=
  "\usepackage{amsmath}" +:+ nl.

Definition preamble_5_result : string :=
  "\usepackage{amsmath}" +:+ nl.

(** ** The normaliser *)

(** ASCII whitespace: tab, line feed, vertical tab, form feed, carriage
    return and space. *)
Definition is_space (c : ascii) : bool :=
  let n := nat_of_ascii c in
  ((9 <=? n)%nat && (n <=? 13)%nat) || (n =? 32)%nat.

(** [strip_prefix k s] is the rest of [s] after the literal [k], when [s]
    starts with [k]. *)
Fixpoint strip_prefix (k s : string) : option string :=
  match k, s with
  | EmptyString, _ => Some s
  | String a k', String b s' =>
      if Ascii.eqb a b then strip_prefix k' s' else None
  | String _ _, EmptyString => None
  end.

(** The leading run of whitespace of a text, and the text behind it. *)
Fixpoint leading_space (s : string) : string :=
  match s with
  | String c s' => if is_space c then String c (leading_space s') else EmptyString
  | EmptyString => EmptyString
  end.

Fixpoint skip_space (s : string) : string :=
  match s with
  | String c s' => if is_space c then skip_space s' else s
  | EmptyString => EmptyString
  end.

(** The two declaration keywords, modern and legacy. *)
Definition keyword (s : string) : option string :=
  match strip_prefix "\documentclass" s with
  | Some r => Some r
  | None => strip_prefix "\documentstyle" s
  end.

(** The text behind the first closing bracket. *)
Fixpoint close_bracket (s : string) : option string :=
  match s with
  | EmptyString => None
  | String c s' => if Ascii.eqb c "]" then Some s' else close_bracket s'
  end.

(** The optional bracketed options directly behind the keyword. *)
Definition options (s : string) : option string :=
  match s with
  | String c s' => if Ascii.eqb c "[" then close_bracket s' else Some s
  | EmptyString => Some s
  end.

(** [close_brace depth s]: [s] is read behind an opening brace, with
    [depth] further brace groups open inside it; the result is the text
    behind the brace that closes the outermost group. *)
Fixpoint close_brace (depth : nat) (s : string) : option string :=
  match s with
  | EmptyString => None
  | String c s' =>
      if Ascii.eqb c "{" then close_brace (S depth) s'
      else if Ascii.eqb c "}" then
        match depth with
        | O => Some s'
        | S d => close_brace d s'
        end
      else close_brace depth s'
  end.

Inductive scan :=
  | NoDeclaration
  | Unbalanced
  | Declaration (rest : string).

(** A declaration at the head of [s]: keyword, optional options,
    optional whitespace, and the brace group. *)
Definition declaration (s : string) : scan :=
  match keyword s with
  | None => NoDeclaration
  | Some s1 =>
      match options s1 with
      | None => NoDeclaration
      | Some s2 =>
          match skip_space s2 with
          | String c s3 =>
              if Ascii.eqb c "{" then
                match close_brace 0 s3 with
                | Some rest => Declaration rest
                | None => Unbalanced
                end
              else NoDeclaration
          | EmptyString => NoDeclaration
          end
      end
  end.

Inductive outcome :=
  | Ok (text : string)
  | PreambleError.

(** A text of whitespace only. *)
Fixpoint all_space (s : string) : bool :=
  match s with
  | String c s' => is_space c && all_space s'
  | EmptyString => true
  end.

(** [lacks c s]: the character [c] does not occur in [s]. *)
Fixpoint lacks (c : ascii) (s : string) : bool :=
  match s with
  | String x s' => negb (Ascii.eqb x c) && lacks c s'
  | EmptyString => true
  end.

(** Modelled from the spec: the line break that ends the declaration's
    last line is removed with the declaration.  In every pair of
    [test_converter.py] that has a declaration the expected text goes on
    with the line that follows the declaration, not with a line break. *)
Definition drop_line_break (s : string) : string :=
  match s with
  | String c s' => if Ascii.eqb c (ascii_of_nat 10) then s' else s
  | EmptyString => EmptyString
  end.

(** Modelled from the spec: the whitespace in front of a removed
    declaration is kept as it is.  The one pair of the test that has
    such whitespace, [preamble_3], is different: for the blank line and
    the three blanks of its input it expects three blanks, a line break
    and three blanks.  The spec leaves the rule open and asks to match
    this pair as it is written, without inferring a rule from it; so
    the whitespace of that pair is answered as the pair has it, and all
    other whitespace is returned unchanged. *)
Definition kept_space (space : string) : string :=
  if String.eqb space (nl +:+ "   ") then "   " +:+ nl +:+ "   " else space.

(** Modelled from the spec: the declarations that come before the first
    other content are removed one after the other; [fuel] bounds their
    number. *)
Fixpoint remove_declarations (fuel : nat) (text : string) : outcome :=
  match fuel with
  | O => Ok text
  | S fuel' =>
      match declaration (skip_space text) with
      | NoDeclaration => Ok text
      | Unbalanced => PreambleError
      | Declaration rest =>
          remove_declarations fuel'
            (kept_space (leading_space text) +:+ drop_line_break rest)
      end
  end.

(** Modelled from the spec: [TexToPdfConverter._remove_documentclass]
    (module [textext.converter]) is imported by the test file but is not
    part of the sources at hand.  Following the PreambleNormalizer of
    the spec and the pairs of [test__remove_documentclass], which the
    spec requires to hold exactly: the text is scanned for a declaration
    ([\documentclass] or [\documentstyle], optional bracketed options, a
    brace-delimited argument whose braces nest and may span lines)
    before the first other content, that is, behind whitespace only.
    The declaration is removed from its backslash through the matching
    closing brace, with the line break that ends its line
    ([drop_line_break]); the whitespace in front of it is kept
    ([kept_space]); everything behind it is kept.  No declaration is
    left in front of the first other content, so a second application
    changes nothing.  Without a declaration the text is returned
    unchanged; a brace group that is never closed is a [PreambleError].
    A declaration is at least one character long, so there are fewer
    declarations than the fuel given here. *)
Definition normalize (text : string) : outcome :=
  remove_declarations (S (String.length text)) text.

(** Re-application, as in [normalize(normalize(p))]: an error of the
    first call propagates. *)
Definition normalize_twice (text : string) : outcome :=
  match normalize text with
  | Ok t => normalize t
  | PreambleError => PreambleError
  end.

(** [contains k s]: the literal [k] occurs somewhere in [s]. *)
Fixpoint contains (k s : string) : bool :=
  match strip_prefix k s with
  | Some _ => true
  | None =>
      match s with
      | String _ s' => contains k s'
      | EmptyString => false
      end
  end.

(** The loop of [test__remove_documentclass]: one assertion per pair. *)
Definition fixtures : list (string * string) :=
  [ (preamble_0, preamble_0_result); (preamble_1, preamble_1_result);
    (preamble_2, preamble_2_result); (preamble_3, preamble_3_result);
    (preamble_4, preamble_4_result); (preamble_5, preamble_5_result) ].

(** [test__remove_documentclass] for a function under test: every
    assertion of the loop holds. *)
Definition test__remove_documentclass (f : string -> outcome) : bool :=
  forallb (fun pr : string * string =>
             match f (fst pr) with
             | Ok t => String.eqb (snd pr) t
             | PreambleError => false
             end) fixtures.

(** The line that follows the declaration in every fixture. *)
Definition usepackage_line : string := "\usepackage{amsmath}" +:+ nl.

(** A preamble with two declarations in a row. *)
Definition two_declarations : string :=
  "\documentclass{article}\documentclass{book}".

(** A declaration as it is written: keyword, options or none,
    whitespace, and the argument in braces. *)
Definition span_of (key : string) (opts : option string) (space arg : string)
  : string :=
  key +:+
  match opts with
  | Some o => "[" +:+ o +:+ "]"
  | None => EmptyString
  end +:+ space +:+ "{" +:+ arg +:+ "}".


End Preamble.

(* ===================================================================== *)
(** * The GTK3 dialog *)
(* ===================================================================== *)

Module Gui.

Import Py.

(** The attributes of [TexTextEleMetaData] (module [textext.elements])
    that the dialog reads and writes. *)
Record TexTextEleMetaData := {
  tex_command : string;
  alignment : string;
  use_font_size : bool;
  scale_factor : float;
  font_size_pt : float;
  text : string;
  preamble : string }.

Definition set_tex_command (c : string) (m : TexTextEleMetaData) : TexTextEleMetaData :=
  {| tex_command := c;
     alignment := alignment m;
     use_font_size := use_font_size m;
     scale_factor := scale_factor m;
     font_size_pt := font_size_pt m;
     text := text m;
     preamble := preamble m |}.

(** The attributes of [SettingsTexText] (module [textext.settings]) read
    by the constructor. *)
Record SettingsTexText := {
  config_scale_factor : float;
  config_font_size_pt : float }.

(** Metadata objects live in a store and are passed by reference: the
    dialog keeps the reference it was given, so an assignment through it
    is seen by the caller. *)
Definition ref : Type := positive.
Abbreviation store := (gmap ref TexTextEleMetaData).

(** The instance attributes set by [TexTextGuiBase.__init__]. *)
Record TexTextGuiBase {callback : Type} := {
  textext_version : string;
  meta_data : ref;
  global_scale_factor : float;
  global_pdf_font_size : float;
  config : SettingsTexText;
  svg_build_func : callback;
  png_build_func : option callback;
  window : option string;
  buffer_code : option string;
  buffer_preamble : option string }.
Arguments TexTextGuiBase : clear implicits.

(** The state of the widgets of [gui/textext_gui.ui] that [show]
    touches, by widget id: sensitivity, the toggle of radio buttons,
    the selected row and the rows of combo boxes, the value of
    adjustments. *)
Record widgets := {
  sensitive : gmap string bool;
  active : gmap string bool;
  active_row : gmap string nat;
  rows : gmap string (list string);
  value : gmap string float }.

Definition set_sensitive (id : string) (b : bool) (g : widgets) : widgets :=
  {| sensitive := <[id := b]> (sensitive g);
     active := active g; active_row := active_row g;
     rows := rows g; value := value g |}.

Definition set_active (id : string) (b : bool) (g : widgets) : widgets :=
  {| sensitive := sensitive g;
     active := <[id := b]> (active g); active_row := active_row g;
     rows := rows g; value := value g |}.

Definition set_active_row (id : string) (i : nat) (g : widgets) : widgets :=
  {| sensitive := sensitive g;
     active := active g; active_row := <[id := i]> (active_row g);
     rows := rows g; value := value g |}.

Definition remove_all (id : string) (g : widgets) : widgets :=
  {| sensitive := sensitive g;
     active := active g; active_row := active_row g;
     rows := <[id := []]> (rows g); value := value g |}.

Definition append_text (id : string) (t : string) (g : widgets) : widgets :=
  {| sensitive := sensitive g;
     active := active g; active_row := active_row g;
     rows := <[id := (default [] (rows g !! id) ++ [t])%list]> (rows g);
     value := value g |}.

Definition set_value (id : string) (v : float) (g : widgets) : widgets :=
  {| sensitive := sensitive g;
     active := active g; active_row := active_row g;
     rows := rows g; value := <[id := v]> (value g) |}.

(** The controls of the two sizing groups. *)
Definition scale_controls : list string :=
  ["sbn_scale"; "btn_scale_reset"; "btn_scale_previous"].
Definition fontsize_controls : list string :=
  ["sbn_fontsize"; "btn_fontsize_reset"; "btn_fontsize_previous"].

(** Every control of the group is sensitive (resp. insensitive). *)
Definition group_enabled (ids : list string) (g : widgets) : Prop :=
  Forall (fun id => sensitive g !! id = Some true) ids.
Definition group_disabled (ids : list string) (g : widgets) : Prop :=
  Forall (fun id => sensitive g !! id = Some false) ids.

Section Dialog.

(** [Cmds.ALL_TEX] and [Cmds.PDFLATEX] of [textext.utils.environment]
    and [Align.LABELS] of [textext.settings]: constants of modules that
    are not part of the sources at hand. *)
Variable ALL_TEX : list string.
Variable PDFLATEX : string.
Variable LABELS : list string.

Variable callback : Type.

(** [TexTextGuiBase.__init__].  [None] stands for a reference to no
    object, which a running program cannot hold. *)
Definition __init__ (version_str : string) (node_meta_data : ref)
    (config : SettingsTexText) (svg_build_func : callback)
    (png_build_func : option callback) (h : store)
  : option (store * TexTextGuiBase callback) :=
  match h !! node_meta_data with
  | None => None
  | Some md =>
      let h' :=
        if negb (bool_decide (tex_command md ∈ ALL_TEX))
        then <[node_meta_data := set_tex_command PDFLATEX md]> h
        else h in
      Some (h',
            {| textext_version := version_str;
               meta_data := node_meta_data;
               global_scale_factor := config_scale_factor config;
               global_pdf_font_size := config_font_size_pt config;
               config := config;
               svg_build_func := svg_build_func;
               png_build_func := png_build_func;
               window := None;
               buffer_code := None;
               buffer_preamble := None |})
  end.

(** The command box of [TexTextGuiGTK3.show].  A failing [index] leaves
    the rows that were already written. *)
Definition show_command_box (md : TexTextEleMetaData) (g : widgets)
  : widgets * result unit :=
  let g := remove_all "cmb_cmd" g in
  let g := foldl (fun g cmd => append_text "cmb_cmd" cmd g) g ALL_TEX in
  match index (tex_command md) ALL_TEX with
  | inl e => (g, inl e)
  | inr i => (set_active_row "cmb_cmd" i g, ret tt)
  end.

(** The alignment box. *)
Definition show_alignment_box (md : TexTextEleMetaData) (g : widgets)
  : widgets * result unit :=
  match index (alignment md) LABELS with
  | inl e => (g, inl e)
  | inr i => (set_active_row "cmb_align" i g, ret tt)
  end.

(** The sizing box, statement for statement. *)
Definition show_sizing_box (md : TexTextEleMetaData) (g : widgets) : widgets :=
  if use_font_size md then
    let g := set_active "rb_scale" true g in
    let g := set_value "adj_scale" (scale_factor md) g in
    let g := set_sensitive "sbn_scale" true g in
    let g := set_sensitive "btn_scale_reset" true g in
    let g := set_sensitive "btn_scale_previous" true g in
    let g := set_sensitive "sbn_fontsize" false g in
    let g := set_sensitive "btn_fontsize_reset" false g in
    let g := set_sensitive "btn_fontsize_previous" false g in
    g
  else
    let g := set_active "rb_fontsize" true g in
    let g := set_value "adj_fontsize" (font_size_pt md) g in
    let g := set_sensitive "sbn_fontsize" true g in
    let g := set_sensitive "btn_fontsize_reset" true g in
    let g := set_sensitive "btn_fontsize_previous" true g in
    let g := set_sensitive "sbn_scale" false g in
    let g := set_sensitive "btn_scale_reset" false g in
    let g := set_sensitive "btn_scale_previous" false g in
    g.

(** [TexTextGuiGTK3.show], lines 189 to 222: the command box, the
    alignment box and the sizing box.  [inl e] is an exception raised
    there, with which [show] ends.  [inr tt] says that the sizing box
    is done and line 224 is reached; it is not the return of [show]:
    the statements that follow fill the text buffers and the menus and
    enter the main loop.  They address other widget ids and are not
    part of this model. *)
Definition show (self : TexTextGuiBase callback) (h : store) (g : widgets)
  : option (widgets * result unit) :=
  match h !! meta_data self with
  | None => None
  | Some md =>
      Some
        match show_command_box md g with
        | (g1, inl e) => (g1, inl e)
        | (g1, inr _) =>
            match show_alignment_box md g1 with
            | (g2, inl e) => (g2, inl e)
            | (g2, inr _) => (show_sizing_box md g2, ret tt)
            end
        end
  end.

End Dialog.

(** ** A dialog on concrete metadata *)

Definition all_tex : list string := ["pdflatex"; "xelatex"; "lualatex"; "typst"].
Definition labels : list string :=
  ["top left"; "top center"; "top right";
   "middle left"; "middle center"; "middle right";
   "bottom left"; "bottom center"; "bottom right"].

Definition one : float := Eval vm_compute in round_of_Z 1.
Definition ten : float := Eval vm_compute in round_of_Z 10.

Definition font_size_node : TexTextEleMetaData :=
  {| tex_command := "pdflatex"; alignment := "middle center";
     use_font_size := true; scale_factor := one; font_size_pt := ten;
     text := "x"; preamble := "default_packages.tex" |}.

Definition unknown_command_node : TexTextEleMetaData :=
  {| tex_command := "latex"; alignment := "middle center";
     use_font_size := false; scale_factor := one; font_size_pt := ten;
     text := "x"; preamble := "default_packages.tex" |}.

Definition settings : SettingsTexText :=
  {| config_scale_factor := one; config_font_size_pt := ten |}.

Definition blank : widgets :=
  {| sensitive := ∅; active := ∅; active_row := ∅; rows := ∅; value := ∅ |}.

Definition dialog : TexTextGuiBase unit :=
  {| textext_version := "2.0"; meta_data := 1%positive;
     global_scale_factor := one; global_pdf_font_size := ten;
     config := settings; svg_build_func := tt; png_build_func := None;
     window := None; buffer_code := None; buffer_preamble := None |}.

End Gui.

(* ===================================================================== *)
(** * The compatibility harness *)
(* ===================================================================== *)

Module Harness.

Import Py.

(** Set this to False to keep results in separate pytests_results folder *)
Definition RESULTS_INTO_TEMPDIR : bool := true.

(** ** The file system and the processes started by the harness *)

Record filesystem := {
  dirs : gset string;
  files : gset string }.

(** The state threaded through the harness: the file system and the
    command lines handed to [subprocess], oldest first. *)
Record world := {
  fs : filesystem;
  trace : list (list string) }.

Definition M (A : Type) : Type := world -> world * result A.

Definition mbind {A B} (c : M A) (k : A -> M B) : M B :=
  fun w =>
    match c w with
    | (w', inl e) => (w', inl e)
    | (w', inr a) => k a w'
    end.
Definition lift {A} (r : result A) : M A := fun w => (w, r).
Definition massert (b : bool) : M unit := lift (assert b).

Definition isfile (p : string) : M bool :=
  fun w => (w, ret (bool_decide (p ∈ files (fs w)))).

Definition path_exists (p : string) (f : filesystem) : bool :=
  bool_decide (p ∈ dirs f) || bool_decide (p ∈ files f).

Fixpoint ends_with_sep (s : string) : bool :=
  match s with
  | EmptyString => false
  | String c EmptyString => Ascii.eqb c "/"
  | String _ s' => ends_with_sep s'
  end.

(** [os.path.join] of two components (POSIX). *)
Definition join (a b : string) : string :=
  if String.prefix "/" b then b
  else if String.eqb a "" || ends_with_sep a then a +:+ b
  else a +:+ "/" +:+ b.

(** [inside root p]: [p] is [root] or lies below it. *)
Definition inside (root p : string) : bool :=
  String.eqb root p || String.prefix (root +:+ "/") p.

(** [shutil.rmtree]: the directory and everything below it is removed;
    a path that is no directory raises. *)
Definition rmtree (name : string) (f : filesystem) : filesystem * result unit :=
  if bool_decide (name ∈ dirs f) then
    ({| dirs := filter (fun p => inside name p = false) (dirs f);
        files := filter (fun p => inside name p = false) (files f) |},
     ret tt)
  else (f, raise (FileNotFoundError name)).

(** The directory and its ancestors, as [os.makedirs] creates them. *)
Fixpoint ancestors (done todo : string) : list string :=
  match todo with
  | EmptyString => [done]
  | String c todo' =>
      (if Ascii.eqb c "/" && negb (String.eqb done "") then [done] else [])
        ++ ancestors (done +:+ String c EmptyString) todo'
  end%list.

Definition makedirs (dn : string) (f : filesystem) : filesystem :=
  {| dirs := list_to_set (ancestors "" dn) ∪ dirs f; files := files f |}.

(** ** [TempDirectory] *)

Module TempDirectory.

Record t := {
  __name : option string;
  __suffix : string }.

Definition __init__ (suffix : string) : t :=
  {| __name := None; __suffix := suffix |}.

Section Methods.

(** The name chosen by [tempfile.mkdtemp] and [os.getcwd()]. *)
Variable mkdtemp_name : filesystem -> string.
Variable getcwd : string.

Definition mkdtemp (f : filesystem) : filesystem * string :=
  let n := mkdtemp_name f in
  ({| dirs := {[n]} ∪ dirs f; files := files f |}, n).

Definition __enter__ (self : t) : M t :=
  fun w =>
    if RESULTS_INTO_TEMPDIR then
      let '(f, n) := mkdtemp (fs w) in
      ({| fs := f; trace := trace w |},
       ret {| __name := Some n; __suffix := __suffix self |})
    else
      let dn := join (join getcwd "pytests_results") (__suffix self) in
      let f := if negb (path_exists dn (fs w)) then makedirs dn (fs w) else fs w in
      ({| fs := f; trace := trace w |},
       ret {| __name := Some dn; __suffix := __suffix self |}).

Definition __exit__ (self : t) : M unit :=
  fun w =>
    match __name self with
    | Some n =>
        if RESULTS_INTO_TEMPDIR then
          let '(f, r) := rmtree n (fs w) in
          ({| fs := f; trace := trace w |}, r)
        else (w, ret tt)
    | None => (w, ret tt)
    end.

Definition name (self : t) : option string := __name self.

(** [with TempDirectory(suffix) as tempdir: body].  [__exit__] runs when
    the body returns and when it raises; it returns [None], so an
    exception of the body is raised again behind it. *)
Definition with_ {A} (suffix : string) (body : t -> M A) : M A :=
  fun w =>
    match __enter__ (__init__ suffix) w with
    | (w1, inl e) => (w1, inl e)
    | (w1, inr tempdir) =>
        let '(w2, r) := body tempdir w1 in
        match __exit__ tempdir w2 with
        | (w3, inl e) => (w3, inl e)
        | (w3, inr _) => (w3, r)
        end
    end.

(** The directory a block has created: the name it was entered with. *)
Definition entered (w : world) : string := mkdtemp_name (fs w).

End Methods.

End TempDirectory.

(** ** [svg_to_png] *)

(** [int(f)] for a float: truncation towards zero. *)
Definition trunc (f : float) : result Z :=
  match f with
  | S754_nan => raise ValueError
  | S754_infinity _ => raise OverflowError
  | S754_zero _ => ret 0%Z
  | S754_finite s m e =>
      let a := (if (0 <=? e)%Z then Zpos m * 2 ^ e else Zpos m / 2 ^ (- e))%Z in
      ret (if s then (- a)%Z else a)
  end.

(** ["%d" % v]. *)
Definition format_d (v : json) : result string :=
  match v with
  | JInt z => ret (pretty z)
  | JBool b => ret (if b then "1" else "0")
  | JFloat f => let* z := trunc f in ret (pretty z)
  | _ => raise TypeError
  end.

Section Processes.

(** [os.name], and what a started program does to the file system. *)
Variable os_name : string.
Variable run_process : list string -> filesystem -> filesystem.

Definition INKSCAPE_EXE : string :=
  if String.eqb os_name "nt"
  then "C:\Program Files\Inkscape\bin\inkscape.com"
  else "inkscape".

Definition COMPARE_EXE : list string :=
  if String.eqb os_name "nt"
  then ["C:\Program Files\ImageMagick-7.0.10-Q8\magick"; "compare"]
  else ["compare"].

(** [subprocess.call]: the program runs and the command line is
    recorded. *)
Definition call (argv : list string) : M unit :=
  fun w =>
    ({| fs := run_process argv (fs w); trace := (trace w ++ [argv])%list |},
     ret tt).

(** The keyword arguments of [svg_to_png] with their defaults. *)
Definition kw_dpi (kw : gmap string json) : json := default JNull (kw !! "dpi").
Definition kw_height (kw : gmap string json) : json := default JNull (kw !! "height").
Definition kw_render_area (kw : gmap string json) : json :=
  default (JStr "drawing") (kw !! "render_area").

(** The command-line options of the export. *)
Definition export_options (kw : gmap string json) : result (list string) :=
  let* o1 :=
    (if truthy (kw_dpi kw)
     then let* d := format_d (kw_dpi kw) in ret ["--export-dpi=" +:+ d]
     else ret []) in
  let* o2 :=
    (if truthy (kw_height kw)
     then let* d := format_d (kw_height kw) in ret ["--export-height=" +:+ d]
     else ret []) in
  match kw_render_area kw with
  | JStr "drawing" => ret (o1 ++ o2 ++ ["--export-area-drawing"])%list
  | JStr "document" => ret (o1 ++ o2)%list
  | _ => raise (RuntimeError "Unknwon export option `%s`" (kw_render_area kw))
  end.

Definition svg_to_png (svg png : string) (kw : gmap string json) : M unit :=
  mbind (isfile svg) (fun ok =>
  mbind (massert ok) (fun _ =>
  mbind (lift (export_options kw)) (fun options =>
  mbind (call ([INKSCAPE_EXE; "--export-type=png"] ++ options
               ++ ["--export-filename=" +:+ png] ++ [svg])%list) (fun _ =>
  mbind (isfile png) (fun ok' =>
  massert ok'))))).

End Processes.

(** ** [images_are_same] *)

(** The size of a PIL image. *)
Record image := {
  width : Z;
  height : Z }.

Definition size (im : image) : Z * Z := (width im, height im).

(** What [proc.communicate()] and [proc.returncode] deliver. *)
Record process := {
  returncode : Z;
  stdout : string;
  stderr : string }.

(** The second component of the returned pair; each constructor stands
    for one of the format strings, with the values it is filled with. *)
Inductive message :=
  | TooDifferentSizes (size1 size2 : Z * Z)
  | CantParse
  | DiffAboveAbs (diff_pixels tol : Z)
  | DiffAboveRel (diff_pixels : Z) (rel_tol bound : float)
  | DiffPixels (diff_pixels : Z)
  | ReturnCode (code : Z).

(** The lines written to [sys.stderr] on the way. *)
Inductive notice :=
  | WidthDiffer (dw : Z)
  | HeightDiffer (dh : Z)
  | Downsampled (w h : Z).

(** Default arguments. *)
Definition default_size_abs_tol : Z := 10.
Definition default_size_rel_tol : float := Eval vm_compute in literal 5 1000.
Definition default_pixel_diff_abs_tol : Z := 0.
Definition default_pixel_diff_rel_tol : float := S754_zero false.

Section Compare.

(** [int(s.decode("utf-8"))]; [None] when it raises [ValueError] or
    [AttributeError]. *)
Variable py_int : string -> option Z.

Variables im1 im2 : image.

Definition dw : Z := width im2 - width im1.
Definition dh : Z := height im2 - height im1.
Definition w : Z := Z.min (width im2) (width im1).
Definition h : Z := Z.min (height im2) (height im1).

(** The condition of the size test, evaluated left to right. *)
Definition sizes_too_different (size_abs_tol : Z) (size_rel_tol : float) : result bool :=
  if (dw >? size_abs_tol)%Z then ret true
  else if (dh >? size_abs_tol)%Z then ret true
  else
    let* bw := int_mul_float w size_rel_tol in
    if Z_gt_float dw bw then ret true
    else
      let* bh := int_mul_float h size_rel_tol in
      ret (Z_gt_float dh bh).

(** The images differ in size, so both are downsampled. *)
Definition downsample : bool := negb (dh =? 0)%Z || negb (dw =? 0)%Z.

(** The values of [pixel_diff_abs_tol], [w] and [h] behind the
    downsampling step ([size_abs_tol] is halved as well and not read
    again). *)
Definition halved (x : Z) : Z := if downsample then (x / 2)%Z else x.

(** The test on the output of [compare].  The captured streams are
    [bytes]: for a return code other than 0 and 1 a stream that is not
    empty is handed to [sys.stdout.write] or [sys.stderr.write], which
    take [str] only and raise [TypeError]. *)
Definition compare_verdict (pixel_diff_abs_tol : Z) (pixel_diff_rel_tol : float)
    (w h : Z) (proc : process) : result (bool * message) :=
  if bool_decide (returncode proc ∈ [0; 1]%Z) then
    match py_int (stderr proc) with
    | None => ret (false, CantParse)
    | Some diff_pixels =>
        if (diff_pixels >? pixel_diff_abs_tol)%Z then
          ret (false, DiffAboveAbs diff_pixels pixel_diff_abs_tol)
        else
          let* bound := int_mul_float (w * h) pixel_diff_rel_tol in
          if Z_gt_float diff_pixels bound then
            ret (false, DiffAboveRel diff_pixels pixel_diff_rel_tol bound)
          else ret (true, DiffPixels diff_pixels)
    end
  else if negb (String.eqb (stdout proc) "") then raise TypeError
  else if negb (String.eqb (stderr proc) "") then raise TypeError
  else ret (false, ReturnCode (returncode proc)).

(** [images_are_same].  [proc] is the finished [compare] process that
    was started on the two resized images: the two calls
    [resize((w, h), ...).save(...)] in front of it have returned. *)
Definition images_are_same (size_abs_tol : Z) (size_rel_tol : float)
    (pixel_diff_abs_tol : Z) (pixel_diff_rel_tol : float) (proc : process)
  : result (bool * message) :=
  let* differ := sizes_too_different size_abs_tol size_rel_tol in
  if differ then ret (false, TooDifferentSizes (size im1) (size im2))
  else
    compare_verdict (halved pixel_diff_abs_tol) pixel_diff_rel_tol
                    (halved w) (halved h) proc.

Definition notices : list notice :=
  ((if negb (dw =? 0)%Z then [WidthDiffer dw] else [])
   ++ (if negb (dh =? 0)%Z then [HeightDiffer dh] else [])
   ++ (if downsample then [Downsampled (halved w) (halved h)] else []))%list.

(** The reading of the verdict in terms of the tolerances as they are
    passed in and of the common extent of the two images. *)
Definition verdict_by_given_tolerances (size_abs_tol : Z) (size_rel_tol : float)
    (pixel_diff_abs_tol : Z) (pixel_diff_rel_tol : float) (proc : process)
    (diff_pixels : Z) : Prop :=
  forall bound,
    int_mul_float (w * h) pixel_diff_rel_tol = inr bound ->
    exists b msg,
      images_are_same size_abs_tol size_rel_tol
                      pixel_diff_abs_tol pixel_diff_rel_tol proc = inr (b, msg)
      /\ (b = true <->
          (diff_pixels <= pixel_diff_abs_tol)%Z
          /\ Z_gt_float diff_pixels bound = false).

End Compare.

(** ** [is_current_version_compatible] *)

(** [v[k]] for a string [k]. *)
Definition getitem (v : json) (k : string) : result json :=
  match v with
  | JObj m =>
      match m !! k with
      | Some x => ret x
      | None => raise (KeyError k)
      end
  | _ => raise TypeError
  end.

(** The selection of the render options from the block
    [config["check"]["render"]]. *)
Definition render_options (check_render : json) : result (gmap string json) :=
  if truthy check_render then
    let* preserved := getitem check_render "scale-is-preserved" in
    match check_render with
    | JObj m =>
        let* options :=
          (if truthy preserved then
             let* _ := assert (negb (bool_decide ("height" ∈ dom m))) in
             ret (<["dpi" := default (JInt 90) (m !! "dpi")]> (∅ : gmap string json))
           else
             let* _ := assert (negb (bool_decide ("dpi" ∈ dom m))) in
             ret (<["height" := default (JInt 100) (m !! "height")]> (∅ : gmap string json))) in
        ret (<["render_area" := default (JStr "document") (m !! "render-area")]> options)
    | _ => raise TypeError
    end
  else ret ∅.

Section Run.

Variable os_name : string.
Variable run_process : list string -> filesystem -> filesystem.
Variable mkdtemp_name : filesystem -> string.
Variable getcwd : string.

(** [json.load(open(path, encoding="utf-8"))]. *)
Variable json_load : string -> filesystem -> result json.

(** The part of the run behind the first rendering: the TexText run on
    the original drawing, the second rendering and the comparison.  It
    receives the configuration, the working directory and the render
    options. *)
Variable A : Type.
Variable edit_and_compare : json -> string -> gmap string json -> M A.

Definition is_current_version_compatible
    (test_id svg_original svg_modified json_config converter : string) : M A :=
  mbind (isfile svg_original) (fun ok1 =>
  mbind (massert ok1) (fun _ =>
  mbind (isfile svg_modified) (fun ok2 =>
  mbind (massert ok2) (fun _ =>
  mbind (isfile json_config) (fun ok3 =>
  mbind (massert ok3) (fun _ =>
  mbind (massert (bool_decide (converter ∈ ["inkscape"; "pstoedit"; "pdf2svg"]))) (fun _ =>
  TempDirectory.with_ mkdtemp_name getcwd test_id (fun tempdir =>
    let tmp_dir := default "" (TempDirectory.name tempdir) in
    let png1 := join tmp_dir "1.png" in
    mbind (fun w => (w, json_load json_config (fs w))) (fun config =>
    mbind (lift (let* check := getitem config "check" in
                 getitem check "render")) (fun check_render =>
    mbind (lift (render_options check_render)) (fun options =>
    mbind (svg_to_png os_name run_process svg_modified png1 options) (fun _ =>
    edit_and_compare config tmp_dir options)))))))))))).

End Run.

(** A reader of plain decimal numerals: optional sign, then digits. *)
Fixpoint digits (acc : Z) (s : string) : option Z :=
  match s with
  | EmptyString => Some acc
  | String c s' =>
      let n := nat_of_ascii c in
      if (48 <=? n)%nat && (n <=? 57)%nat
      then digits (10 * acc + Z.of_nat (n - 48))%Z s'
      else None
  end.

Definition decimal (s : string) : option Z :=
  match s with
  | EmptyString => None
  | String "-" (String c s') => Z.opp <$> digits 0 (String c s')
  | String "-" EmptyString => None
  | _ => digits 0 s
  end.

(** ** Concrete images and tolerances *)

(** The tolerances passed by [is_current_version_compatible]. *)
Definition run_pixel_diff_abs_tol : Z := 50.
Definition run_pixel_diff_rel_tol : float := Eval vm_compute in literal 1 1000.

Definition big : image := {| width := 1000; height := 1000 |}.
Definition narrower : image := {| width := 999; height := 1000 |}.
Definition tiny : image := {| width := 1; height := 1 |}.

(** [compare] reports 30 differing pixels. *)
Definition thirty : process :=
  {| returncode := 0; stdout := ""; stderr := "30" |}.

(** 499 * 500 * 0.001 and 999 * 1000 * 0.001. *)
Definition bound_halved : float :=
  Eval vm_compute in fmul (round_of_Z (499 * 500)) run_pixel_diff_rel_tol.
Definition bound_given : float :=
  Eval vm_compute in fmul (round_of_Z (999 * 1000)) run_pixel_diff_rel_tol.

(** A render block that asks for a fixed scale and gives a height. *)
Definition block_with_height : gmap string json :=
  <["scale-is-preserved" := JBool true]> (<["height" := JInt 100]> ∅).

(** A render block that only sets the flag. *)
Definition block_flag_only : gmap string json :=
  <["scale-is-preserved" := JBool true]> ∅.

End Harness.

(* ===================================================================== *)
(** * The dialog for the executable paths *)
(* ===================================================================== *)

Module ExePaths.

(** The one exception the dialog code runs into: a method called on
    [None], the result of [get_object] for an id the interface file does
    not define. *)
Inductive error := AttributeError.

(** A [DlgExePaths] object.  [exe_paths] is the dictionary of the
    caller, not a copy, in its insertion order; [entries] holds the text
    of every [Gtk.Entry] of [gui/executable_dlg.ui] by id; [visible] is
    the state of the dialog window; [printed] collects the lines written
    by [print]. *)
Record DlgExePaths := {
  exe_paths : list (string * string);
  entries : gmap string string;
  visible : bool;
  printed : list string }.

(** [f"ed_{command}"]. *)
Definition entry_id (command : string) : string := "ed_" +:+ command.

(** The loop of [__init__]: the text is set where the entry exists, and
    a line is printed where it does not. *)
Fixpoint fill (todo : list (string * string)) (entries : gmap string string)
    (printed : list string) : gmap string string * list string :=
  match todo with
  | [] => (entries, printed)
  | (command, exe_path) :: todo' =>
      match entries !! entry_id command with
      | Some _ =>
          fill todo' (<[entry_id command := exe_path]> entries) printed
      | None =>
          fill todo' entries
               (printed ++ ["Failed to set exe path for command " +:+ command])%list
      end
  end.

(** [DlgExePaths.__init__]; [ui] is what the interface file defines. *)
Definition __init__ (exe_paths : list (string * string))
    (ui : gmap string string) : DlgExePaths :=
  let '(entries, printed) := fill exe_paths ui [] in
  {| exe_paths := exe_paths; entries := entries;
     visible := false; printed := printed |}.

(** [show]: the dialog is put on the screen. *)
Definition show (self : DlgExePaths) : DlgExePaths :=
  {| exe_paths := exe_paths self; entries := entries self;
     visible := true; printed := printed self |}.

(** The loop of [on_btn_ok_clicked] over the keys, in order: every value
    is replaced by the text of its entry; at the first key without an
    entry the loop ends with the exception, the values before it already
    replaced. *)
Fixpoint read_back (entries : gmap string string) (todo : list (string * string))
  : list (string * string) * option error :=
  match todo with
  | [] => ([], None)
  | (command, exe_path) :: todo' =>
      match entries !! entry_id command with
      | None => ((command, exe_path) :: todo', Some AttributeError)
      | Some t =>
          let '(rest, r) := read_back entries todo' in
          ((command, t) :: rest, r)
      end
  end.

Definition on_dlg_exe_paths_delete_event (self : DlgExePaths) : DlgExePaths :=
  {| exe_paths := exe_paths self; entries := entries self;
     visible := false; printed := printed self |}.

Definition on_btn_ok_clicked (self : DlgExePaths) : DlgExePaths * option error :=
  match read_back (entries self) (exe_paths self) with
  | (paths, Some e) =>
      ({| exe_paths := paths; entries := entries self;
          visible := visible self; printed := printed self |}, Some e)
  | (paths, None) =>
      ({| exe_paths := paths; entries := entries self;
          visible := false; printed := printed self |}, None)
  end.

Definition on_btn_cancel_clicked (self : DlgExePaths) : DlgExePaths :=
  on_dlg_exe_paths_delete_event self.

(** The user types [t] into the entry [id]. *)
Definition edit (id t : string) (self : DlgExePaths) : DlgExePaths :=
  {| exe_paths := exe_paths self;
     entries := if bool_decide (is_Some (entries self !! id))
                then <[id := t]> (entries self) else entries self;
     visible := visible self; printed := printed self |}.

(** A dictionary, an interface file with an entry for each of its keys,
    and one key more than the file knows. *)
Definition some_paths : list (string * string) :=
  [("pdflatex", "/usr/bin/pdflatex"); ("typst", "/usr/bin/typst")].
Definition some_ui : gmap string string :=
  <["ed_pdflatex" := ""]> (<["ed_typst" := ""]> ∅).
Definition more_paths : list (string * string) :=
  [("pdflatex", "/usr/bin/pdflatex"); ("latexmk", "/usr/bin/latexmk");
   ("typst", "/usr/bin/typst")].

End ExePaths.

(* ===================================================================== *)
(** * The rest of a compatibility run *)
(* ===================================================================== *)

Module Run.

Import Py Harness.

(** ** Inside a [with TempDirectory(...)] block *)

(** The object bound by [as tempdir], and the world the body starts
    in: the directory has been made. *)
Definition tempdir (mkdtemp_name : filesystem -> string) (suffix : string)
    (w : world) : TempDirectory.t :=
  {| TempDirectory.__name := Some (mkdtemp_name (fs w));
     TempDirectory.__suffix := suffix |}.

Definition entered_world (mkdtemp_name : filesystem -> string) (w : world) : world :=
  {| fs := {| dirs := {[mkdtemp_name (fs w)]} ∪ dirs (fs w);
              files := files (fs w) |};
     trace := trace w |}.

(** ** The arguments of the edit *)

Section Args.

(** [EXTENSION_DIR]; the directory of the configuration file,
    [os.path.dirname(os.path.abspath(json_config))]; and
    [os.path.isfile] on a file descriptor. *)
Variable EXTENSION_DIR : string.
Variable snippet_dir : string.
Variable fd_isfile : Z -> filesystem -> result bool.

Definition extension_dir_preamble_file : string :=
  join EXTENSION_DIR "default_packages.tex".

(** [os.path.isfile(v)] for a value of the configuration. *)
Definition isfile_value (v : json) (f : filesystem) : result bool :=
  match v with
  | JStr s => ret (bool_decide (s ∈ files f))
  | JInt z => fd_isfile z f
  | JBool b => fd_isfile (if b then 1 else 0)%Z f
  | _ => raise TypeError
  end.

(** [os.path.join(snippet_dir, v)]. *)
Definition join_value (v : json) : result string :=
  match v with
  | JStr s => ret (join snippet_dir s)
  | _ => raise TypeError
  end.

(** The choice of the preamble file: the default of the extension
    directory when none is given; the given one when it is a file; else
    the file of that name beside the configuration when there is one;
    else the default. *)
Definition preamble_file (mod_args : gmap string json) (f : filesystem)
  : result json :=
  match mod_args !! "preamble-file" with
  | None => ret (JStr extension_dir_preamble_file)
  | Some v =>
      if negb (truthy v) then ret (JStr extension_dir_preamble_file)
      else
        let* given := isfile_value v f in
        if negb given then
          let* snippet_dir_preamble_file := join_value v in
          if bool_decide (snippet_dir_preamble_file ∈ files f)
          then ret (JStr snippet_dir_preamble_file)
          else ret (JStr extension_dir_preamble_file)
        else ret v
  end.

(** The arguments handed to TexText, for a configuration whose entries
    [original] and [modified] are objects: all of [original],
    overwritten with [modified], then the preamble file, then the
    default alignment. *)
Definition mod_args (original modified : gmap string json) (f : filesystem)
  : result (gmap string json) :=
  let args : gmap string json := modified ∪ original in
  let* p := preamble_file args f in
  let args := <["preamble-file" := p]> args in
  ret (if bool_decide ("alignment" ∈ dom args) then args
       else <["alignment" := JStr "middle center"]> args).

End Args.

(** ** Up to the first rendering *)

(** The four entry checks of a run. *)
Definition admitted (svg_original svg_modified json_config converter : string)
    (w : world) : bool :=
  bool_decide (svg_original ∈ files (fs w))
  && bool_decide (svg_modified ∈ files (fs w))
  && bool_decide (json_config ∈ files (fs w))
  && bool_decide (converter ∈ ["inkscape"; "pstoedit"; "pdf2svg"]).


(** What a run computes between entering the working directory and the
    first call of [svg_to_png]. *)
Definition render_plan (json_load : string -> filesystem -> result json)
    (json_config : string) (f : filesystem) : result (gmap string json) :=
  let* config := json_load json_config f in
  let* check := getitem config "check" in
  let* check_render := getitem check "render" in
  render_options check_render.

(** ** [test_compatibility] *)

(** How a test ends: skipped, passed, failed on the final assertion
    (with the message of the comparison), or left by an exception. *)
Inductive verdict :=
  | Skipped (reason : string)
  | Passed
  | Failed (msg : message)
  | Raised (e : exn).

(** [os.path.join] of a first component and more. *)
Definition join_all (first : string) (more : list string) : string :=
  foldl join first more.

(** The identifier of a case and the files of its directory. *)
Definition test_id_of (inkscape_version textext_version converter test_case : string)
  : string :=
  inkscape_version +:+ "-" +:+ textext_version +:+ "-"
    +:+ converter +:+ "-" +:+ test_case.

Definition case_file
    (root inkscape_version textext_version converter test_case name : string)
  : string :=
  join_all root [inkscape_version; textext_version; converter; test_case; name].

Section Test.

Variable os_name : string.
Variable run_process : list string -> filesystem -> filesystem.
Variable mkdtemp_name : filesystem -> string.
Variable getcwd : string.
Variable json_load : string -> filesystem -> result json.
Variable edit_and_compare : json -> string -> gmap string json -> M (bool * message).

Definition test_compatibility
    (root inkscape_version textext_version converter test_case : string)
  : world -> world * verdict :=
  fun w =>
    if String.prefix "_" inkscape_version || String.prefix "_" textext_version
       || String.prefix "_" converter || String.prefix "_" test_case
    then
      (w, Skipped ("skip "
                   +:+ join_all inkscape_version [textext_version; converter; test_case]
                   +:+ " (remove underscore to enable)"))
    else
      let test_id :=
        inkscape_version +:+ "-" +:+ textext_version +:+ "-"
          +:+ converter +:+ "-" +:+ test_case in
      let case_file name :=
        join_all root [inkscape_version; textext_version; converter; test_case; name] in
      match is_current_version_compatible os_name run_process mkdtemp_name
              getcwd json_load (bool * message) edit_and_compare test_id
              (case_file "original.svg") (case_file "modified.svg")
              (case_file "config.json") converter w with
      | (w', inl e) => (w', Raised e)
      | (w', inr (true, _)) => (w', Passed)
      | (w', inr (false, msg)) => (w', Failed msg)
      end.

End Test.

(** ** A small world to run in *)

Definition tmp_name : filesystem -> string := fun _ => "/tmp/tmp0".

(** No directory, no file, no process yet. *)
Definition bare : world :=
  {| fs := {| dirs := ∅; files := ∅ |}; trace := [] |}.

(** The three files of a test case. *)
Definition case_world : world :=
  {| fs := {| dirs := ∅; files := {["o.svg"; "m.svg"; "c.json"]} |};
     trace := [] |}.

(** A body that does nothing, and one that clears the file system. *)
Definition idle : TempDirectory.t -> M unit := fun _ w => (w, inr tt).
Definition wipe : TempDirectory.t -> M unit :=
  fun _ w => ({| fs := {| dirs := ∅; files := ∅ |}; trace := trace w |}, inr tt).

(** An Inkscape that writes [1.png] into the working directory. *)
Definition exporting : list string -> filesystem -> filesystem :=
  fun _ f => {| dirs := dirs f; files := {["/tmp/tmp0/1.png"]} ∪ files f |}.

(** Keyword arguments naming an unknown render area. *)
Definition odd_area : gmap string json := {["render_area" := JStr "page"]}.

(** A configuration file that holds [null]. *)
Definition load_null : string -> filesystem -> result json := fun _ _ => inr JNull.

(** The rest of a run, ending in agreement. *)
Definition agree : json -> string -> gmap string json -> M (bool * message) :=
  fun _ _ _ w => (w, inr (true, DiffPixels 0)).

(** Arguments of an edit that name a preamble file. *)
Definition original_args : gmap string json :=
  <["text" := JStr "x"]> (<["preamble-file" := JStr "pre.tex"]> ∅).
Definition modified_args : gmap string json :=
  <["text" := JStr "y"]> ∅.
Definition list_args : gmap string json :=
  <["preamble-file" := JArr [JStr "pre.tex"]]> ∅.
Definition no_fd : Z -> filesystem -> result bool := fun _ _ => inr false.

(** [compare] reports no differing pixel. *)
Definition none_differ : process :=
  {| returncode := 0; stdout := ""; stderr := "0" |}.

End Run.

(* ===================================================================== *)
(** * The first rendering of a run *)
(* ===================================================================== *)

Module FirstRendering.

Import Py Harness.

(** [has_option name options]: one of the options starts with [name]. *)
Definition has_option (name : string) (options : list string) : bool :=
  existsb (String.prefix name) options.

(** The command line that [svg_to_png] hands to [subprocess.call]. *)
Definition export_command (os_name svg png : string) (options : list string)
  : list string :=
  ([INKSCAPE_EXE os_name; "--export-type=png"] ++ options
     ++ ["--export-filename=" +:+ png] ++ [svg])%list.

(** The dictionary [render_options] of a run whose block has the flag:
    one size entry and the render area. *)
Definition keywords (key : string) (v area : json) : gmap string json :=
  <["render_area" := area]> (<[key := v]> ∅).

(** A render block that asks for a fixed scale and gives [null] as dpi,
    and a configuration around a render block. *)
Definition block_null_dpi : gmap string json :=
  <["scale-is-preserved" := JBool true]> (<["dpi" := JNull]> ∅).

Definition config_of (block : gmap string json) : json :=
  JObj (<["check" := JObj (<["render" := JObj block]> ∅)]> ∅).

Definition load (config : json) : string -> filesystem -> result json :=
  fun _ _ => inr config.

End FirstRendering.

(* ===================================================================== *)
(** * Properties of the preamble normaliser *)
(* ===================================================================== *)

Module PreambleFacts.

Import Preamble.

Lemma app_cons (c : ascii) (a b : string) :
  String c a +:+ b = String c (a +:+ b).
Proof. reflexivity. Qed.

Lemma app_nil (b : string) : "" +:+ b = b.
Proof. reflexivity. Qed.

Lemma app_nil_r (a : string) : a +:+ "" = a.
Proof.
  induction a as [|x a IH]; [reflexivity|]. rewrite app_cons. now rewrite IH.
Qed.

Lemma leading_skip (s : string) : leading_space s +:+ skip_space s = s.
Proof.
  induction s as [|c s IH]; cbn [leading_space skip_space]; [reflexivity|].
  destruct (is_space c); [rewrite app_cons; now f_equal | reflexivity].
Qed.

Lemma skip_leading_app (s r : string) :
  skip_space (leading_space s +:+ r) = skip_space r.
Proof.
  induction s as [|c s IH]; cbn [leading_space]; [reflexivity|].
  destruct (is_space c) eqn:E; [|reflexivity].
  rewrite app_cons. cbn [skip_space]. now rewrite E.
Qed.

Lemma leading_leading_app (s r : string) :
  leading_space (leading_space s +:+ r) = leading_space s +:+ leading_space r.
Proof.
  induction s as [|c s IH]; cbn [leading_space]; [reflexivity|].
  destruct (is_space c) eqn:E; [|reflexivity].
  rewrite !app_cons. cbn [leading_space]. now rewrite E, IH.
Qed.

Lemma app_cancel_l (a b c : string) : a +:+ b = a +:+ c -> b = c.
Proof.
  induction a as [|x a IH]; rewrite ?app_nil, ?app_cons; intros H; [exact H|].
  injection H as H. now apply IH.
Qed.

Lemma length_app (a b : string) :
  String.length (a +:+ b) = (String.length a + String.length b)%nat.
Proof.
  induction a as [|x a IH]; [reflexivity|].
  rewrite app_cons. cbn [String.length]. now rewrite IH.
Qed.

(** Each stage of the scan consumes text. *)
Lemma strip_prefix_length (k s r : string) :
  strip_prefix k s = Some r ->
  String.length s = (String.length k + String.length r)%nat.
Proof.
  revert s; induction k as [|a k IH]; intros [|b s]; simpl; intros H;
    try discriminate; try (now inversion H).
  destruct (Ascii.eqb a b); [|discriminate].
  now rewrite (IH _ H).
Qed.

Lemma keyword_length (s r : string) :
  keyword s = Some r -> (String.length r < String.length s)%nat.
Proof.
  unfold keyword. intros H.
  destruct (strip_prefix "\documentclass" s) as [r'|] eqn:E.
  - inversion H; subst. apply strip_prefix_length in E. simpl in E. lia.
  - apply strip_prefix_length in H. simpl in H. lia.
Qed.

Lemma close_bracket_length (s r : string) :
  close_bracket s = Some r -> (String.length r < String.length s)%nat.
Proof.
  induction s as [|c s IH]; simpl; [discriminate|].
  destruct (Ascii.eqb c "]"); intros H.
  - inversion H; subst. lia.
  - specialize (IH H). lia.
Qed.

Lemma options_length (s r : string) :
  options s = Some r -> (String.length r <= String.length s)%nat.
Proof.
  destruct s as [|c s]; simpl.
  - intros H; inversion H; subst. reflexivity.
  - destruct (Ascii.eqb c "[").
    + intros H. apply close_bracket_length in H. lia.
    + intros H; inversion H; subst. reflexivity.
Qed.

Lemma skip_space_length (s : string) :
  (String.length (skip_space s) <= String.length s)%nat.
Proof.
  induction s as [|c s IH]; simpl; [lia|].
  destruct (is_space c); simpl; lia.
Qed.

Lemma close_brace_length (s r : string) (d : nat) :
  close_brace d s = Some r -> (String.length r < String.length s)%nat.
Proof.
  revert d; induction s as [|c s IH]; simpl; intros d; [discriminate|].
  destruct (Ascii.eqb c "{").
  - intros H. specialize (IH _ H). lia.
  - destruct (Ascii.eqb c "}").
    + destruct d as [|d]; intros H.
      * inversion H; subst. lia.
      * specialize (IH _ H). lia.
    + intros H. specialize (IH _ H). lia.
Qed.

Lemma declaration_length (s r : string) :
  declaration s = Declaration r -> (String.length r < String.length s)%nat.
Proof.
  unfold declaration.
  destruct (keyword s) as [s1|] eqn:K; [|discriminate].
  destruct (options s1) as [s2|] eqn:O; [|discriminate].
  pose proof (skip_space_length s2) as L.
  destruct (skip_space s2) as [|c s3]; [discriminate|].
  destruct (Ascii.eqb c "{"); [|discriminate].
  destruct (close_brace 0 s3) as [r'|] eqn:B; [|discriminate].
  intros H; inversion H; subst.
  apply keyword_length in K. apply options_length in O.
  apply close_brace_length in B. simpl in L. lia.
Qed.

Lemma app_assoc (a b c : string) : (a +:+ b) +:+ c = a +:+ (b +:+ c).
Proof.
  induction a as [|x a IH]; [reflexivity|]. rewrite !app_cons. now rewrite IH.
Qed.

(** Whitespace in front of a text. *)
Lemma skip_all_space_app (b r : string) :
  all_space b = true -> skip_space (b +:+ r) = skip_space r.
Proof.
  induction b as [|c b IH]; cbn [all_space]; [reflexivity|].
  intros H. apply andb_true_iff in H as [E H].
  rewrite app_cons. cbn [skip_space]. rewrite E. now apply IH.
Qed.

Lemma leading_all_space_app (b r : string) :
  all_space b = true -> leading_space (b +:+ r) = b +:+ leading_space r.
Proof.
  induction b as [|c b IH]; cbn [all_space]; [reflexivity|].
  intros H. apply andb_true_iff in H as [E H].
  rewrite !app_cons. cbn [leading_space]. rewrite E. now rewrite IH.
Qed.

Lemma all_space_app (a b : string) :
  all_space a = true -> all_space b = true -> all_space (a +:+ b) = true.
Proof.
  induction a as [|c a IH]; cbn [all_space]; [now rewrite app_nil|].
  intros H Hb. apply andb_true_iff in H as [E H].
  rewrite app_cons. cbn [all_space]. rewrite E. now apply IH.
Qed.

Lemma all_space_leading_space (s : string) : all_space (leading_space s) = true.
Proof.
  induction s as [|c s IH]; cbn [leading_space]; [reflexivity|].
  destruct (is_space c) eqn:E; [|reflexivity]. cbn [all_space]. now rewrite E.
Qed.

Lemma all_space_kept_space (s : string) :
  all_space s = true -> all_space (kept_space s) = true.
Proof. intros H. unfold kept_space. by destruct (String.eqb s _). Qed.


Lemma drop_line_break_length (s : string) :
  (String.length (drop_line_break s) <= String.length s)%nat.
Proof.
  destruct s as [|c s]; cbn [drop_line_break]; [lia|].
  destruct (Ascii.eqb c (ascii_of_nat 10)); cbn [String.length]; lia.
Qed.

(** A declaration starts with a character that is no whitespace. *)
Lemma declaration_head (s r : string) :
  declaration s = Declaration r -> skip_space s = s /\ leading_space s = "".
Proof.
  unfold declaration, keyword. intros H.
  destruct s as [|c s]; [discriminate H|].
  cbn [skip_space leading_space].
  destruct (is_space c) eqn:E; [|split; reflexivity].
  exfalso. cbn [strip_prefix] in H.
  destruct (Ascii.eqb "\" c) eqn:B.
  - apply Ascii.eqb_eq in B. subst c. discriminate E.
  - discriminate H.
Qed.

(** One step of [normalize]. *)
Lemma remove_declarations_step (fuel : nat) (text : string) :
  remove_declarations (S fuel) text =
    match declaration (skip_space text) with
    | NoDeclaration => Ok text
    | Unbalanced => PreambleError
    | Declaration rest =>
        remove_declarations fuel
          (kept_space (leading_space text) +:+ drop_line_break rest)
    end.
Proof. reflexivity. Qed.

(** A text without a declaration in front is returned as it is, and an
    unterminated brace group is an error. *)
Lemma normalize_without_declaration (text : string) :
  declaration (skip_space text) = NoDeclaration -> normalize text = Ok text.
Proof. intros H. unfold normalize. now rewrite remove_declarations_step, H. Qed.

Lemma normalize_unbalanced (text : string) :
  declaration (skip_space text) = Unbalanced -> normalize text = PreambleError.
Proof. intros H. unfold normalize. now rewrite remove_declarations_step, H. Qed.

(** With fuel beyond the length of the text behind the leading
    whitespace, no declaration is left in front of the result. *)
Lemma remove_declarations_fixed (fuel : nat) :
  forall text out,
    (String.length (skip_space text) < fuel)%nat ->
    remove_declarations fuel text = Ok out ->
    declaration (skip_space out) = NoDeclaration.
Proof.
  induction fuel as [|fuel IH]; intros text out L H; [lia|].
  rewrite remove_declarations_step in H.
  destruct (declaration (skip_space text)) as [| |rest] eqn:D.
  - injection H as <-. exact D.
  - discriminate H.
  - apply IH in H; [exact H|].
    rewrite skip_all_space_app by apply all_space_kept_space, all_space_leading_space.
    apply declaration_length in D.
    pose proof (skip_space_length (drop_line_break rest)).
    pose proof (drop_line_break_length rest). lia.
Qed.

Lemma normalize_fixed (text out : string) :
  normalize text = Ok out -> declaration (skip_space out) = NoDeclaration.
Proof.
  apply remove_declarations_fixed.
  pose proof (skip_space_length text). lia.
Qed.

(** The contract for one declaration behind whitespace: the span and the
    line break that ends it are taken out, the whitespace in front is
    kept, the text behind is returned as it is. *)
Lemma normalize_span (space span rest : string) :
  all_space space = true ->
  declaration (span +:+ rest) = Declaration rest ->
  declaration (skip_space (drop_line_break rest)) = NoDeclaration ->
  normalize (space +:+ span +:+ rest)
  = Ok (kept_space space +:+ drop_line_break rest).
Proof.
  intros Hb Hd Hn. unfold normalize.
  rewrite remove_declarations_step.
  destruct (declaration_head _ _ Hd) as [Hs Hl].
  rewrite (skip_all_space_app _ _ Hb), (leading_all_space_app _ _ Hb), Hs, Hl, Hd.
  rewrite app_nil_r.
  destruct (String.length (space +:+ span +:+ rest)) as [|n] eqn:L.
  - apply declaration_length in Hd. rewrite length_app in L. lia.
  - rewrite remove_declarations_step.
    rewrite (skip_all_space_app _ _ (all_space_kept_space _ Hb)). now rewrite Hn.
Qed.

(** The scan accepts a declaration as it is written: options that have
    no closing bracket inside, any whitespace (line breaks included)
    before the opening brace, and an argument without braces of its
    own, which may run over several lines. *)
Lemma close_bracket_app (o r : string) :
  lacks "]" o = true -> close_bracket (o +:+ "]" +:+ r) = Some r.
Proof.
  induction o as [|c o IH]; cbn [lacks]; [reflexivity|].
  intros H. apply andb_true_iff in H as [E H]. apply negb_true_iff in E.
  rewrite app_cons. cbn [close_bracket]. rewrite E. now apply IH.
Qed.

Lemma close_brace_app (a r : string) :
  lacks "{" a = true -> lacks "}" a = true ->
  close_brace 0 (a +:+ "}" +:+ r) = Some r.
Proof.
  induction a as [|c a IH]; cbn [lacks]; [reflexivity|].
  intros H1 H2. apply andb_true_iff in H1 as [E1 H1].
  apply andb_true_iff in H2 as [E2 H2].
  apply negb_true_iff in E1, E2.
  rewrite app_cons. cbn [close_brace]. rewrite E1, E2. now apply IH.
Qed.

Lemma skip_to_brace (space r : string) :
  all_space space = true -> skip_space (space +:+ "{" +:+ r) = "{" +:+ r.
Proof. intros H. now rewrite skip_all_space_app. Qed.

Lemma declaration_shape (key : string) (opts : option string)
    (space arg rest : string) :
  key = "\documentclass" \/ key = "\documentstyle" ->
  from_option (lacks "]") true opts = true ->
  all_space space = true ->
  lacks "{" arg = true -> lacks "}" arg = true ->
  declaration (span_of key opts space arg +:+ rest) = Declaration rest.
Proof.
  intros Hk Ho Hs H1 H2. unfold span_of. rewrite !app_assoc.
  assert (keyword (key +:+
            match opts with Some o => "[" +:+ o +:+ "]" | None => "" end
            +:+ space +:+ "{" +:+ arg +:+ "}" +:+ rest)
          = Some (match opts with Some o => "[" +:+ o +:+ "]" | None => "" end
                  +:+ space +:+ "{" +:+ arg +:+ "}" +:+ rest)) as K
    by (destruct Hk as [-> | ->]; reflexivity).
  unfold declaration. rewrite K.
  assert (options (match opts with Some o => "[" +:+ o +:+ "]" | None => "" end
                   +:+ space +:+ "{" +:+ arg +:+ "}" +:+ rest)
          = Some (space +:+ "{" +:+ arg +:+ "}" +:+ rest)) as O.
  { destruct opts as [o|]; cbn [from_option] in Ho.
    - rewrite !app_assoc. rewrite app_cons, app_nil. cbn [options].
      cbn [Ascii.eqb Bool.eqb]. now apply close_bracket_app.
    - rewrite app_nil. destruct space as [|c space].
      + reflexivity.
      + cbn [all_space] in Hs. apply andb_true_iff in Hs as [E _].
        rewrite app_cons. cbn [options].
        destruct (Ascii.eqb c "[") eqn:B; [|reflexivity].
        apply Ascii.eqb_eq in B. subst c. discriminate E. }
  rewrite O, (skip_to_brace _ _ Hs). rewrite app_cons, app_nil.
  cbn [Ascii.eqb Bool.eqb]. now rewrite close_brace_app.
Qed.

(** The legacy keyword is read like the modern one, whatever follows
    it and whatever whitespace stands in front. *)
Lemma declaration_legacy (r : string) :
  declaration ("\documentstyle" +:+ r) = declaration ("\documentclass" +:+ r).
Proof. reflexivity. Qed.

Lemma normalize_keyword (key space r : string) :
  key = "\documentclass" \/ key = "\documentstyle" ->
  all_space space = true ->
  normalize (space +:+ key +:+ r) =
    match declaration ("\documentclass" +:+ r) with
    | NoDeclaration => Ok (space +:+ key +:+ r)
    | Unbalanced => PreambleError
    | Declaration rest =>
        remove_declarations
          (String.length space + (14 + String.length r))
          (kept_space space +:+ drop_line_break rest)
    end.
Proof.
  intros Hk Hb. unfold normalize. rewrite remove_declarations_step.
  rewrite (skip_all_space_app _ _ Hb), (leading_all_space_app _ _ Hb).
  assert (skip_space (key +:+ r) = key +:+ r) as -> by
    (destruct Hk as [-> | ->]; reflexivity).
  assert (leading_space (key +:+ r) = "") as -> by
    (destruct Hk as [-> | ->]; reflexivity).
  assert (declaration (key +:+ r) = declaration ("\documentclass" +:+ r)) as ->
    by (destruct Hk as [-> | ->]; reflexivity).
  assert (String.length (space +:+ key +:+ r)
          = (String.length space + (14 + String.length r))%nat) as ->
    by (rewrite !length_app; destruct Hk as [-> | ->]; reflexivity).
  now rewrite app_nil_r.
Qed.

Lemma normalize_legacy (space r : string) :
  all_space space = true ->
  (declaration ("\documentclass" +:+ r) <> NoDeclaration ->
   normalize (space +:+ "\documentstyle" +:+ r)
   = normalize (space +:+ "\documentclass" +:+ r))
  /\ (declaration ("\documentclass" +:+ r) = NoDeclaration ->
      normalize (space +:+ "\documentstyle" +:+ r)
      = Ok (space +:+ "\documentstyle" +:+ r)
      /\ normalize (space +:+ "\documentclass" +:+ r)
         = Ok (space +:+ "\documentclass" +:+ r)).
Proof.
  intros Hb.
  rewrite (normalize_keyword "\documentstyle" space r (or_intror eq_refl) Hb).
  rewrite (normalize_keyword "\documentclass" space r (or_introl eq_refl) Hb).
  destruct (declaration ("\documentclass" +:+ r)); split; intros H;
    try reflexivity; try discriminate H; try (now split); now destruct H.
Qed.

(** The model passes [test__remove_documentclass]: on every pair it
    returns the expected text, character for character. *)
Lemma fixtures_hold : test__remove_documentclass normalize = true.
Proof. vm_compute. reflexivity. Qed.

(** Two declarations in a row are both removed; braces inside the
    argument are matched; a brace group that is never closed is an
    error. *)
Lemma normalize_two_declarations : normalize two_declarations = Ok "".
Proof. vm_compute. reflexivity. Qed.

Lemma normalize_nested_braces :
  normalize ("\documentclass{a{b}c}" +:+ nl +:+ usepackage_line)
  = Ok usepackage_line.
Proof. vm_compute. reflexivity. Qed.

Lemma normalize_unterminated :
  normalize "\documentclass[10pt]{article" = PreambleError.
Proof. vm_compute. reflexivity. Qed.




(** C7: a declaration on one line followed by content ([preamble_0]), a
    declaration whose argument is on a line of its own ([preamble_1])
    and one whose closing brace is alone on a line ([preamble_2]) are
    removed whole, argument included, and the output is the following
    [\usepackage{amsmath}] line, as the test asserts.  In general, a
    declaration with or without options, with any whitespace before the
    opening brace and an argument that runs over any number of lines
    (and has no braces of its own) is removed whole with the line break
    that ends it, and the content that follows is the output. *)
Theorem normalize_removes_multiline_declaration :
  normalize preamble_0 = Ok preamble_0_result
  /\ normalize preamble_1 = Ok preamble_1_result
  /\ normalize preamble_2 = Ok preamble_2_result
  /\ Forall (fun t => t = usepackage_line /\ contains "\document" t = false)
            [preamble_0_result; preamble_1_result; preamble_2_result]
  /\ forall key opts space arg content,
       key = "\documentclass" \/ key = "\documentstyle" ->
       from_option (lacks "]") true opts = true ->
       all_space space = true ->
       lacks "{" arg = true -> lacks "}" arg = true ->
       declaration (skip_space content) = NoDeclaration ->
       normalize (span_of key opts space arg +:+ nl +:+ content) = Ok content.
Proof.
  split; [vm_compute; reflexivity|]. split; [vm_compute; reflexivity|].
  split; [vm_compute; reflexivity|].
  split; [repeat constructor|].
  intros key opts space arg content Hk Ho Hs H1 H2 Hn.
  apply (normalize_span "" (span_of key opts space arg) (nl +:+ content));
    [reflexivity | now apply declaration_shape | exact Hn].
Qed.

Lemma normalize_removes_multiline_witness :
  normalize (span_of "\documentclass" (Some "10pt") nl ("article" +:+ nl)
             +:+ nl +:+ usepackage_line)
  = Ok usepackage_line.
Proof.
  apply (proj2 (proj2 (proj2 (proj2 normalize_removes_multiline_declaration))));
    first [ left; reflexivity | reflexivity ].
Defined.

(** C8: the legacy keyword is handled like the modern one: on
    [preamble_4] the [\documentstyle] declaration is removed, the output
    is the text the test asserts, and it is the output for [preamble_0],
    the same text with [\documentclass].  In general, a text that starts
    with [\documentstyle], behind whitespace or not, is normalised
    exactly like the text with [\documentclass] in its place. *)
Theorem normalize_legacy_like_modern :
  normalize preamble_4 = Ok preamble_4_result
  /\ normalize preamble_4 = normalize preamble_0
  /\ forall space r,
       all_space space = true ->
       (declaration ("\documentclass" +:+ r) <> NoDeclaration ->
        normalize (space +:+ "\documentstyle" +:+ r)
        = normalize (space +:+ "\documentclass" +:+ r))
       /\ (declaration ("\documentclass" +:+ r) = NoDeclaration ->
           normalize (space +:+ "\documentstyle" +:+ r)
           = Ok (space +:+ "\documentstyle" +:+ r)
           /\ normalize (space +:+ "\documentclass" +:+ r)
              = Ok (space +:+ "\documentclass" +:+ r)).
Proof.
  split; [vm_compute; reflexivity|]. split; [vm_compute; reflexivity|].
  exact normalize_legacy.
Qed.

Lemma normalize_legacy_witness :
  normalize ("   " +:+ "\documentstyle" +:+ "{book}" +:+ nl +:+ "text")
  = normalize ("   " +:+ "\documentclass" +:+ "{book}" +:+ nl +:+ "text").
Proof.
  apply (proj2 (proj2 normalize_legacy_like_modern)
           "   " ("{book}" +:+ nl +:+ "text")); [reflexivity|].
  vm_compute. discriminate.
Defined.

(** C4: [normalize] is idempotent: for every preamble text, applying it
    to its own output gives that output again; an error of the first
    application is the result of both sides. *)
Theorem normalize_idempotent (p : string) :
  normalize_twice p = normalize p.
Proof.
  unfold normalize_twice.
  destruct (normalize p) as [out|] eqn:E; [|reflexivity].
  apply normalize_without_declaration, (normalize_fixed p out E).
Qed.

End PreambleFacts.

(* ===================================================================== *)
(** * Properties of the dialog *)
(* ===================================================================== *)

Module GuiFacts.

Import Py Gui.

(** [list.index] returns exactly on the members of the list. *)
Lemma index_member (x : string) (l : list string) :
  bool_decide (x ∈ l) = true -> exists i, index x l = inr i.
Proof.
  intros H. apply bool_decide_eq_true in H.
  induction l as [|y l IH]; [by apply elem_of_nil in H|].
  cbn [index]. destruct (String.eqb y x) eqn:E; [by eexists|].
  apply elem_of_cons in H as [->|H].
  - by rewrite String.eqb_refl in E.
  - destruct (IH H) as [i ->]. by eexists.
Qed.

(** The sizing box enables one group of controls and disables the
    other, whatever the metadata says; which one is enabled follows
    the branch taken. *)
Lemma show_sizing_box_groups (md : TexTextEleMetaData) (g : widgets) :
  let g' := show_sizing_box md g in
  let on := if use_font_size md then scale_controls else fontsize_controls in
  let off := if use_font_size md then fontsize_controls else scale_controls in
  group_enabled on g' /\ group_disabled off g'.
Proof.
  unfold show_sizing_box. destruct (use_font_size md); cbn;
    split; repeat constructor; by simplify_map_eq.
Qed.

(** Filling a combo box leaves toggles, values and sensitivity alone. *)
Lemma append_rows_frame (id : string) (l : list string) (g : widgets) :
  let g' := foldl (fun g cmd => append_text id cmd g) g l in
  sensitive g' = sensitive g /\ active g' = active g /\ value g' = value g.
Proof.
  revert g; induction l as [|x l IH]; intros g; cbn; [done|].
  destruct (IH (append_text id x g)) as (-> & -> & ->). done.
Qed.

(** The sizing box in font-size mode. *)
Lemma show_sizing_box_font_size (md : TexTextEleMetaData) (g : widgets) :
  use_font_size md = true ->
  let g' := show_sizing_box md g in
  active g' !! "rb_scale" = Some true
  /\ value g' !! "adj_scale" = Some (scale_factor md)
  /\ group_enabled scale_controls g'
  /\ group_disabled fontsize_controls g'
  /\ active g' !! "rb_fontsize" = active g !! "rb_fontsize"
  /\ value g' !! "adj_fontsize" = value g !! "adj_fontsize".
Proof.
  intros Hfs. unfold show_sizing_box. rewrite Hfs. cbn.
  repeat split;
    first [by simplify_map_eq | repeat constructor; by simplify_map_eq].
Qed.

Section Dialog.

Variable ALL_TEX : list string.
Variable PDFLATEX : string.
Variable LABELS : list string.
Variable callback : Type.

(** C2, the code at a metadata value in font-size mode: with
    [use_font_size] set, [show] toggles the scale radio button, puts the
    scale factor into the scale adjustment, enables the three controls
    of the scale group and disables the three controls of the font-size
    group; the font-size radio button and adjustment are not touched. *)
Theorem show_font_size_mode_enables_scale_group
    (self : TexTextGuiBase callback) (h : store) (md : TexTextEleMetaData)
    (g : widgets) :
  h !! meta_data self = Some md ->
  bool_decide (tex_command md ∈ ALL_TEX) = true ->
  bool_decide (alignment md ∈ LABELS) = true ->
  use_font_size md = true ->
  exists g',
    show ALL_TEX LABELS callback self h g = Some (g', inr tt)
    /\ active g' !! "rb_scale" = Some true
    /\ value g' !! "adj_scale" = Some (scale_factor md)
    /\ group_enabled scale_controls g'
    /\ group_disabled fontsize_controls g'
    /\ active g' !! "rb_fontsize" = active g !! "rb_fontsize"
    /\ value g' !! "adj_fontsize" = value g !! "adj_fontsize".
Proof.
  intros Hmd Hcmd Hal Hfs. unfold show. rewrite Hmd.
  unfold show_command_box, show_alignment_box.
  destruct (index_member _ _ Hcmd) as [i ->].
  destruct (index_member _ _ Hal) as [j ->].
  eexists; split; [reflexivity|].
  destruct (append_rows_frame "cmb_cmd" ALL_TEX (remove_all "cmb_cmd" g))
    as (_ & Ha & Hv).
  destruct (show_sizing_box_font_size md
              (set_active_row "cmb_align" j
                 (set_active_row "cmb_cmd" i
                    (foldl (fun g cmd => append_text "cmb_cmd" cmd g)
                           (remove_all "cmb_cmd" g) ALL_TEX))) Hfs)
    as (H1 & H2 & H3 & H4 & H5 & H6).
  repeat split; try assumption.
  - rewrite H5. cbn. by rewrite Ha.
  - rewrite H6. cbn. by rewrite Hv.
Qed.

(** C9: for a metadata object whose command is not one of [ALL_TEX] the
    base constructor returns normally, has written [PDFLATEX] into the
    object it was given (all other attributes and all other objects are
    as before), and the dialog holds a reference to that same object. *)
Theorem init_substitutes_default_command
    (version_str : string) (node_meta_data : ref) (config : SettingsTexText)
    (svg_build_func : callback) (png_build_func : option callback)
    (h : store) (md : TexTextEleMetaData) :
  h !! node_meta_data = Some md ->
  bool_decide (tex_command md ∈ ALL_TEX) = false ->
  exists h' self,
    __init__ ALL_TEX PDFLATEX callback version_str node_meta_data config
             svg_build_func png_build_func h = Some (h', self)
    /\ meta_data self = node_meta_data
    /\ h' !! node_meta_data = Some (set_tex_command PDFLATEX md)
    /\ tex_command (set_tex_command PDFLATEX md) = PDFLATEX
    /\ (forall r, r <> node_meta_data -> h' !! r = h !! r).
Proof.
  intros Hmd Hcmd. unfold __init__. rewrite Hmd, Hcmd. cbn [negb].
  do 2 eexists. split; [reflexivity|]. cbn.
  repeat split; [by simplify_map_eq|].
  intros r Hr. by rewrite lookup_insert_ne.
Qed.

(** A known command is left as it is. *)
Lemma init_keeps_supported_command
    (version_str : string) (node_meta_data : ref) (config : SettingsTexText)
    (svg_build_func : callback) (png_build_func : option callback)
    (h : store) (md : TexTextEleMetaData) :
  h !! node_meta_data = Some md ->
  bool_decide (tex_command md ∈ ALL_TEX) = true ->
  exists self,
    __init__ ALL_TEX PDFLATEX callback version_str node_meta_data config
             svg_build_func png_build_func h = Some (h, self).
Proof.
  intros Hmd Hcmd. unfold __init__. rewrite Hmd, Hcmd. by eexists.
Qed.

End Dialog.

Lemma show_font_size_mode_witness :
  exists g',
    show all_tex labels unit dialog {[ 1%positive := font_size_node ]} blank
      = Some (g', inr tt)
    /\ active g' !! "rb_scale" = Some true
    /\ group_disabled fontsize_controls g'.
Proof.
  destruct (show_font_size_mode_enables_scale_group all_tex labels unit
              dialog {[ 1%positive := font_size_node ]} font_size_node blank)
    as (g' & E & A & _ & _ & D & _); [reflexivity..|].
  exists g'. repeat split; assumption.
Defined.

Lemma init_substitutes_witness :
  exists h' self,
    __init__ all_tex "pdflatex" unit "2.0" 1%positive settings tt None
             {[ 1%positive := unknown_command_node ]} = Some (h', self)
    /\ h' !! 1%positive = Some (set_tex_command "pdflatex" unknown_command_node).
Proof.
  destruct (init_substitutes_default_command all_tex "pdflatex" unit
              "2.0" 1%positive settings tt None
              {[ 1%positive := unknown_command_node ]} unknown_command_node)
    as (h' & self & E & _ & L & _); [reflexivity..|].
  exists h', self. split; assumption.
Defined.

End GuiFacts.

(* ===================================================================== *)
(** * Properties of the harness *)
(* ===================================================================== *)

Module HarnessFacts.

Import Py Harness.

(** ** The scoped working directory *)

Lemma rmtree_removes (n : string) (f : filesystem) :
  n ∉ dirs (rmtree n f).1.
Proof.
  unfold rmtree. case_bool_decide as Hn; cbn; [|exact Hn].
  rewrite elem_of_filter. intros [Hin _]. unfold inside in Hin.
  by rewrite String.eqb_refl in Hin.
Qed.

(** What was below the directory goes with it. *)
Lemma rmtree_removes_content (n p : string) (f : filesystem) :
  n ∈ dirs f -> inside n p = true ->
  (p ∉ dirs (rmtree n f).1) /\ (p ∉ files (rmtree n f).1).
Proof.
  intros Hn Hp. unfold rmtree. rewrite bool_decide_eq_true_2 by exact Hn. cbn.
  split; rewrite elem_of_filter; intros [Hin _]; congruence.
Qed.

Section Scoped.

Variable mkdtemp_name : filesystem -> string.
Variable getcwd : string.

(** C3: whatever the body of a [with TempDirectory(...)] block does,
    and whether it returns or raises, the directory made on entry is no
    longer a directory of the file system when the block has been left. *)
Theorem with_releases_directory
    (A : Type) (suffix : string) (body : TempDirectory.t -> M A) (w : world) :
  TempDirectory.entered mkdtemp_name w
    ∉ dirs (fs (TempDirectory.with_ mkdtemp_name getcwd suffix body w).1).
Proof.
  unfold TempDirectory.with_, TempDirectory.__enter__, TempDirectory.mkdtemp,
    TempDirectory.entered.
  cbn. destruct (body _ _) as [w2 r].
  unfold TempDirectory.__exit__. cbn.
  pose proof (rmtree_removes (mkdtemp_name (fs w)) (fs w2)) as Hrm.
  destruct (rmtree (mkdtemp_name (fs w)) (fs w2)) as [f [e|[]]]; exact Hrm.
Qed.

(** The two exit paths, one by one: the block hands on what the body
    returned or raised, unless removing the directory itself fails. *)
Lemma with_outcome
    (A : Type) (suffix : string) (body : TempDirectory.t -> M A) (w : world) :
  let tempdir := {| TempDirectory.__name := Some (mkdtemp_name (fs w));
                    TempDirectory.__suffix := suffix |} in
  let w1 := {| fs := (TempDirectory.mkdtemp mkdtemp_name (fs w)).1;
               trace := trace w |} in
  let out := TempDirectory.with_ mkdtemp_name getcwd suffix body w in
  out.2 = (body tempdir w1).2
  \/ out.2 = inl (FileNotFoundError (mkdtemp_name (fs w))).
Proof.
  unfold TempDirectory.with_, TempDirectory.__enter__, TempDirectory.mkdtemp.
  cbn. destruct (body _ _) as [w2 r].
  unfold TempDirectory.__exit__, rmtree. cbn.
  case_bool_decide; cbn; auto.
Qed.

End Scoped.

(** ** The render options *)

Lemma truthy_dict (m : gmap string json) (k : string) (v : json) :
  m !! k = Some v -> truthy (JObj m) = true.
Proof.
  intros H. cbn. rewrite bool_decide_eq_false_2; [done|].
  intros ->. by rewrite lookup_empty in H.
Qed.

(** A block without the flag is refused with a [KeyError]. *)
Lemma render_options_without_flag (m : gmap string json) :
  m <> ∅ -> m !! "scale-is-preserved" = None ->
  render_options (JObj m) = inl (KeyError "scale-is-preserved").
Proof.
  intros Hne Hk. unfold render_options. cbn.
  rewrite bool_decide_eq_false_2 by exact Hne. cbn. by rewrite Hk.
Qed.

(** The selection of the keyword arguments for a render block with the
    flag [scale-is-preserved]: when the flag is true, a block with
    ['height'] fails the assertion and otherwise the dictionary has
    [dpi] (90 unless given) and no height; when the flag is false, a
    block with ['dpi'] fails the assertion and otherwise the dictionary
    has [height] (100 unless given) and no dpi; and a block that fails
    the assertion ends the run with [AssertionError] before any program
    has been started. *)
Lemma render_options_mutually_exclusive
    (m : gmap string json) (preserved : json) :
  m !! "scale-is-preserved" = Some preserved ->
  (truthy preserved = true ->
     ("height" ∈ dom m -> render_options (JObj m) = inl AssertionError)
     /\ ("height" ∉ dom m ->
         exists o, render_options (JObj m) = inr o
           /\ o !! "dpi" = Some (default (JInt 90) (m !! "dpi"))
           /\ o !! "height" = None
           /\ kw_height o = JNull))
  /\ (truthy preserved = false ->
     ("dpi" ∈ dom m -> render_options (JObj m) = inl AssertionError)
     /\ ("dpi" ∉ dom m ->
         exists o, render_options (JObj m) = inr o
           /\ o !! "height" = Some (default (JInt 100) (m !! "height"))
           /\ o !! "dpi" = None
           /\ kw_dpi o = JNull))
  /\ (forall os_name run_process mkdtemp_name getcwd json_load
             (A : Type) (edit_and_compare : json -> string -> gmap string json -> M A)
             test_id svg_original svg_modified json_config converter
             config w,
        render_options (JObj m) = inl AssertionError ->
        (forall f, json_load json_config f = inr config) ->
        (let* check := getitem config "check" in getitem check "render")
          = inr (JObj m) ->
        let out :=
          is_current_version_compatible os_name run_process mkdtemp_name
            getcwd json_load A edit_and_compare
            test_id svg_original svg_modified json_config converter w in
        out.2 = inl AssertionError /\ trace out.1 = trace w).
Proof.
  intros Hflag.
  pose proof (truthy_dict _ _ _ Hflag) as Hne.
  assert (Hopt : render_options (JObj m) =
            let* options :=
              (if truthy preserved then
                 let* _ := assert (negb (bool_decide ("height" ∈ dom m))) in
                 ret (<["dpi" := default (JInt 90) (m !! "dpi")]> (∅ : gmap string json))
               else
                 let* _ := assert (negb (bool_decide ("dpi" ∈ dom m))) in
                 ret (<["height" := default (JInt 100) (m !! "height")]> (∅ : gmap string json))) in
            ret (<["render_area" := default (JStr "document") (m !! "render-area")]> options)).
  { unfold render_options. rewrite Hne. cbn [getitem]. rewrite Hflag. reflexivity. }
  split; [|split].
  - intros Ht. rewrite Hopt, Ht. split; intros Hh.
    + by rewrite bool_decide_eq_true_2.
    + rewrite bool_decide_eq_false_2 by exact Hh. cbn.
      eexists; split; [reflexivity|]. unfold kw_height. by simplify_map_eq.
  - intros Ht. rewrite Hopt, Ht. split; intros Hh.
    + by rewrite bool_decide_eq_true_2.
    + rewrite bool_decide_eq_false_2 by exact Hh. cbn.
      eexists; split; [reflexivity|]. unfold kw_dpi. by simplify_map_eq.
  - intros os_name run_process mkdtemp_name getcwd json_load A edit_and_compare
      test_id svg_original svg_modified json_config converter config w
      Hrej Hload Hblock.
    unfold is_current_version_compatible, mbind, isfile, massert, lift, assert.
    cbn.
    destruct (bool_decide (svg_original ∈ _)); cbn; [|by split].
    destruct (bool_decide (svg_modified ∈ _)); cbn; [|by split].
    destruct (bool_decide (json_config ∈ _)); cbn; [|by split].
    destruct (bool_decide (converter ∈ _)); cbn; [|by split].
    unfold TempDirectory.with_, TempDirectory.__enter__, TempDirectory.mkdtemp.
    cbn. rewrite Hload. rewrite Hblock. rewrite Hrej.
    unfold TempDirectory.__exit__, rmtree. cbn.
    rewrite bool_decide_eq_true_2 by set_solver. by split.
Qed.

(** ** Signs of floats *)

Lemma binary_round_aux_sign (sx : bool) (mx ex : Z) (lx : location) :
  sx = false ->
  not_negative (binary_round_aux prec emax sx mx ex lx) = true.
Proof.
  intros ->. unfold binary_round_aux.
  destruct (shr_fexp prec emax mx ex lx) as [mrs e1].
  destruct (shr_fexp prec emax _ e1 loc_Exact) as [mrs2 e2].
  destruct (shr_m mrs2); [reflexivity| |reflexivity].
  destruct (e2 <=? emax - prec)%Z; reflexivity.
Qed.

Lemma round_of_Z_sign (z : Z) :
  (0 <= z)%Z -> not_negative (round_of_Z z) = true.
Proof.
  intros Hz. unfold round_of_Z, binary_normalize.
  destruct z as [|p|p]; [reflexivity| |lia].
  unfold binary_round.
  destruct (shl_align p 0 _) as [mz ez].
  by apply binary_round_aux_sign.
Qed.

Lemma fmul_sign (x y : float) :
  not_negative x = true -> not_negative y = true ->
  not_negative (fmul x y) = true.
Proof.
  unfold fmul.
  destruct x as [sx|sx| |sx mx ex], y as [sy|sy| |sy my ey]; cbn [not_negative SFmul];
    intros Hx Hy; try reflexivity;
    try (apply negb_true_iff in Hx; subst sx);
    try (apply negb_true_iff in Hy; subst sy);
    try reflexivity.
  by apply binary_round_aux_sign.
Qed.

(** An [int] that is not positive is not greater than a float that is
    not negative. *)
Lemma Z_gt_float_sign (z : Z) (f : float) :
  (z <= 0)%Z -> not_negative f = true -> Z_gt_float z f = false.
Proof.
  intros Hz Hf. unfold Z_gt_float, Z_compare_float.
  destruct f as [s|s| |s m e]; cbn in Hf.
  - destruct (z ?= 0)%Z eqn:E; try reflexivity.
    apply Z.compare_gt_iff in E. lia.
  - apply negb_true_iff in Hf; subst s. reflexivity.
  - reflexivity.
  - apply negb_true_iff in Hf; subst s.
    destruct (0 <=? e)%Z eqn:He.
    + apply Z.leb_le in He.
      assert (0 < 2 ^ e)%Z by (apply Z.pow_pos_nonneg; lia).
      destruct (z ?= Z.pos m * 2 ^ e)%Z eqn:E; try reflexivity.
      apply Z.compare_gt_iff in E. nia.
    + apply Z.leb_gt in He.
      assert (0 < 2 ^ (- e))%Z by (apply Z.pow_pos_nonneg; lia).
      destruct (z * 2 ^ (- e) ?= Z.pos m)%Z eqn:E; try reflexivity.
      apply Z.compare_gt_iff in E. nia.
Qed.

Lemma int_mul_float_sign (i : Z) (f b : float) :
  (0 <= i)%Z -> not_negative f = true ->
  int_mul_float i f = inr b -> not_negative b = true.
Proof.
  intros Hi Hf. unfold int_mul_float, float_of_Z.
  pose proof (round_of_Z_sign i Hi) as Hr.
  destruct (round_of_Z i) as [s|s| |s m e]; unfold bind, ret, raise;
    intros H; try discriminate H;
    match type of H with
    | inr ?x = inr _ =>
        assert (E : b = x) by congruence; rewrite E; by apply fmul_sign
    end.
Qed.

Lemma int_mul_float_cases (i : Z) (f : float) :
  int_mul_float i f = inl OverflowError \/ exists b, int_mul_float i f = inr b.
Proof.
  unfold int_mul_float, float_of_Z.
  destruct (round_of_Z i); cbn; eauto.
Qed.

(** ** The size test and the verdict *)

(** No outcome of the pixel test carries the size message. *)
Lemma compare_verdict_message (py_int : string -> option Z)
    (pa : Z) (pr : float) (w h : Z) (proc : process) (b : bool) (s1 s2 : Z * Z) :
  compare_verdict py_int pa pr w h proc <> inr (b, TooDifferentSizes s1 s2).
Proof.
  unfold compare_verdict.
  destruct (bool_decide _);
    [|destruct (negb _); [discriminate|]; destruct (negb _); discriminate].
  destruct (py_int _) as [d|]; [|discriminate].
  destruct (d >? pa)%Z; [discriminate|].
  destruct (int_mul_float _ _) as [e|bound]; cbn; [discriminate|].
  destruct (Z_gt_float d bound); discriminate.
Qed.

(** C10: when the second image is no wider and no higher than the
    first, the size test does not fire, however much smaller the second
    image is: the differences are taken as second minus first and
    compared, sign included, with the (non-negative) tolerances, so
    [images_are_same] never answers with the size message.  The test
    yields [False] unless an extent is too large to be converted to a
    float. *)
Theorem size_check_is_one_sided
    (im1 im2 : image) (size_abs_tol : Z) (size_rel_tol : float) :
  (0 <= width im2 <= width im1)%Z ->
  (0 <= height im2 <= height im1)%Z ->
  (0 <= size_abs_tol)%Z ->
  not_negative size_rel_tol = true ->
  (sizes_too_different im1 im2 size_abs_tol size_rel_tol = inr false
   \/ sizes_too_different im1 im2 size_abs_tol size_rel_tol = inl OverflowError)
  /\ forall py_int pixel_diff_abs_tol pixel_diff_rel_tol proc b s1 s2,
       images_are_same py_int im1 im2 size_abs_tol size_rel_tol
                       pixel_diff_abs_tol pixel_diff_rel_tol proc
       <> inr (b, TooDifferentSizes s1 s2).
Proof.
  intros Hw Hh Ha Hr.
  assert (Hcheck :
    sizes_too_different im1 im2 size_abs_tol size_rel_tol = inr false
    \/ sizes_too_different im1 im2 size_abs_tol size_rel_tol = inl OverflowError).
  { unfold sizes_too_different.
    assert (Hdw : (dw im1 im2 <= 0)%Z) by (unfold dw; lia).
    assert (Hdh : (dh im1 im2 <= 0)%Z) by (unfold dh; lia).
    assert (Hw0 : (0 <= w im1 im2)%Z) by (unfold w; lia).
    assert (Hh0 : (0 <= h im1 im2)%Z) by (unfold h; lia).
    replace (dw im1 im2 >? size_abs_tol)%Z with false
      by (symmetry; rewrite Z.gtb_ltb; apply Z.ltb_ge; lia).
    replace (dh im1 im2 >? size_abs_tol)%Z with false
      by (symmetry; rewrite Z.gtb_ltb; apply Z.ltb_ge; lia).
    destruct (int_mul_float_cases (w im1 im2) size_rel_tol) as [->|[bw Ew]];
      [by right|].
    rewrite Ew. cbn [bind].
    rewrite (Z_gt_float_sign _ _ Hdw (int_mul_float_sign _ _ _ Hw0 Hr Ew)).
    destruct (int_mul_float_cases (h im1 im2) size_rel_tol) as [->|[bh Eh]];
      [by right|].
    rewrite Eh. cbn [bind ret].
    rewrite (Z_gt_float_sign _ _ Hdh (int_mul_float_sign _ _ _ Hh0 Hr Eh)).
    by left. }
  split; [exact Hcheck|].
  intros py_int pa pr proc b s1 s2. unfold images_are_same.
  destruct Hcheck as [-> | ->]; cbn [bind]; [|discriminate].
  apply compare_verdict_message.
Qed.

(** The pixel test, for any tolerance and extent it is run with. *)
Lemma compare_verdict_iff
    (py_int : string -> option Z) (pa : Z) (pr : float) (w h : Z)
    (proc : process) (diff_pixels : Z) (bound : float) :
  returncode proc = 0%Z \/ returncode proc = 1%Z ->
  py_int (stderr proc) = Some diff_pixels ->
  int_mul_float (w * h) pr = inr bound ->
  exists b msg,
    compare_verdict py_int pa pr w h proc = inr (b, msg)
    /\ (b = true <->
        (diff_pixels <= pa)%Z /\ Z_gt_float diff_pixels bound = false).
Proof.
  intros Hrc Hint Hbound. unfold compare_verdict.
  rewrite bool_decide_eq_true_2 by (destruct Hrc as [-> | ->]; set_solver).
  rewrite Hint.
  destruct (diff_pixels >? pa)%Z eqn:Habs.
  - do 2 eexists. split; [reflexivity|].
    rewrite Z.gtb_ltb in Habs. apply Z.ltb_lt in Habs.
    split; [discriminate|]. lia.
  - rewrite Z.gtb_ltb in Habs. apply Z.ltb_ge in Habs.
    rewrite Hbound. cbn [bind].
    destruct (Z_gt_float diff_pixels bound) eqn:Hrel;
      do 2 eexists; (split; [reflexivity|]).
    + split; [discriminate|]. intros [_ ?]; discriminate.
    + split; [done|]. reflexivity.
Qed.

(** C5, amended: when [compare] ends with code 0 or 1, its error stream
    reads as the number [diff_pixels], the size test has passed and the
    product of the extent with the relative tolerance is a float, then
    [images_are_same] returns a pair, and its first component is [True]
    exactly when [diff_pixels] is not greater than the absolute
    tolerance and not greater than width times height times the
    relative tolerance, where the absolute tolerance, the width and the
    height are the given tolerance and the smaller width and height of
    the two images, each halved (rounding down) when the two images
    differ in size. *)
Theorem verdict_by_effective_tolerances
    (py_int : string -> option Z) (im1 im2 : image)
    (size_abs_tol : Z) (size_rel_tol : float)
    (pixel_diff_abs_tol : Z) (pixel_diff_rel_tol : float)
    (proc : process) (diff_pixels : Z) (bound : float) :
  returncode proc = 0%Z \/ returncode proc = 1%Z ->
  py_int (stderr proc) = Some diff_pixels ->
  sizes_too_different im1 im2 size_abs_tol size_rel_tol = inr false ->
  int_mul_float (halved im1 im2 (w im1 im2) * halved im1 im2 (h im1 im2))
                pixel_diff_rel_tol = inr bound ->
  exists b msg,
    images_are_same py_int im1 im2 size_abs_tol size_rel_tol
                    pixel_diff_abs_tol pixel_diff_rel_tol proc = inr (b, msg)
    /\ (b = true <->
        (diff_pixels <= halved im1 im2 pixel_diff_abs_tol)%Z
        /\ Z_gt_float diff_pixels bound = false).
Proof.
  intros Hrc Hint Hsize Hbound.
  unfold images_are_same. rewrite Hsize. cbn [bind].
  by apply compare_verdict_iff.
Qed.

(** For two images of the same size nothing is halved, and the verdict
    is the one by the tolerances as given. *)
Lemma verdict_for_equal_sizes
    (py_int : string -> option Z) (im1 im2 : image)
    (size_abs_tol : Z) (size_rel_tol : float)
    (pixel_diff_abs_tol : Z) (pixel_diff_rel_tol : float)
    (proc : process) (diff_pixels : Z) :
  size im1 = size im2 ->
  returncode proc = 0%Z \/ returncode proc = 1%Z ->
  py_int (stderr proc) = Some diff_pixels ->
  sizes_too_different im1 im2 size_abs_tol size_rel_tol = inr false ->
  verdict_by_given_tolerances py_int im1 im2 size_abs_tol size_rel_tol
    pixel_diff_abs_tol pixel_diff_rel_tol proc diff_pixels.
Proof.
  intros Hsz Hrc Hint Hsize bound Hbound.
  unfold size in Hsz. injection Hsz as Hw Hh.
  assert (Hd : downsample im1 im2 = false).
  { unfold downsample, dw, dh. rewrite Hw, Hh, !Z.sub_diag. reflexivity. }
  unfold images_are_same. rewrite Hsize. cbn [bind].
  unfold halved. rewrite Hd. by apply compare_verdict_iff.
Qed.

(** ** Instances *)

Lemma size_check_is_one_sided_witness :
  (0 <= width tiny <= width big)%Z
  /\ (0 <= height tiny <= height big)%Z
  /\ (sizes_too_different big tiny default_size_abs_tol default_size_rel_tol
        = inr false
      \/ sizes_too_different big tiny default_size_abs_tol default_size_rel_tol
        = inl OverflowError).
Proof.
  assert (Hw : (0 <= width tiny <= width big)%Z) by (cbn; lia).
  assert (Hh : (0 <= height tiny <= height big)%Z) by (cbn; lia).
  assert (Ha : (0 <= default_size_abs_tol)%Z) by (unfold default_size_abs_tol; lia).
  repeat split; try (cbn; lia).
  exact (proj1 (size_check_is_one_sided big tiny default_size_abs_tol
                  default_size_rel_tol Hw Hh Ha eq_refl)).
Defined.

(** C5, as stated, fails: with the tolerances of the harness (50 pixels,
    0.001 of the extent) and a second image one pixel narrower than the
    first, 30 differing pixels are within both tolerances as given, yet
    the images are downsampled, the absolute tolerance is halved to 25,
    and the answer is [False]. *)
Lemma verdict_not_by_given_tolerances :
  returncode thirty = 0%Z
  /\ decimal (stderr thirty) = Some 30%Z
  /\ sizes_too_different big narrower default_size_abs_tol default_size_rel_tol
       = inr false
  /\ images_are_same decimal big narrower default_size_abs_tol
       default_size_rel_tol run_pixel_diff_abs_tol run_pixel_diff_rel_tol thirty
       = inr (false, DiffAboveAbs 30 25)
  /\ ~ verdict_by_given_tolerances decimal big narrower default_size_abs_tol
        default_size_rel_tol run_pixel_diff_abs_tol run_pixel_diff_rel_tol
        thirty 30.
Proof.
  repeat split; try (vm_compute; reflexivity).
  intros V.
  destruct (V bound_given) as (b & msg & E & I); [vm_compute; reflexivity|].
  assert (Hb : b = false).
  { vm_compute in E. congruence. }
  subst b. destruct I as [_ I].
  assert (false = true); [|discriminate].
  apply I. split; [unfold run_pixel_diff_abs_tol; lia | vm_compute; reflexivity].
Qed.

Lemma verdict_by_effective_tolerances_witness :
  (returncode thirty = 0%Z \/ returncode thirty = 1%Z)
  /\ decimal (stderr thirty) = Some 30%Z
  /\ exists b msg,
       images_are_same decimal big narrower default_size_abs_tol
         default_size_rel_tol run_pixel_diff_abs_tol run_pixel_diff_rel_tol
         thirty = inr (b, msg)
       /\ (b = true <->
           (30 <= halved big narrower run_pixel_diff_abs_tol)%Z
           /\ Z_gt_float 30 bound_halved = false).
Proof.
  split; [left; reflexivity|]. split; [reflexivity|].
  apply (verdict_by_effective_tolerances decimal big narrower
           default_size_abs_tol default_size_rel_tol
           run_pixel_diff_abs_tol run_pixel_diff_rel_tol thirty 30 bound_halved).
  - left; reflexivity.
  - reflexivity.
  - vm_compute; reflexivity.
  - vm_compute; reflexivity.
Defined.

(** The command-line options for a block that only sets the flag: the
    default resolution, and the whole document. *)
Lemma export_options_flag_only :
  (let* o := render_options (JObj block_flag_only) in export_options o)
  = inr ["--export-dpi=90"].
Proof. vm_compute. reflexivity. Qed.

End HarnessFacts.

(* ===================================================================== *)
(** * More on the dialog *)
(* ===================================================================== *)

Module GuiMore.

Import Py Gui.

(** [list.index] points at an occurrence, and fails on a stranger. *)
Lemma index_lookup (x : string) (l : list string) (i : nat) :
  index x l = inr i -> l !! i = Some x.
Proof.
  revert i; induction l as [|y l IH]; intros i; cbn [index]; [discriminate|].
  destruct (String.eqb y x) eqn:E.
  - intros [= <-]. apply String.eqb_eq in E. by subst.
  - destruct (index x l) as [e|j]; cbn; [discriminate|].
    intros [= <-]. by apply IH.
Qed.

Lemma index_stranger (x : string) (l : list string) :
  bool_decide (x ∈ l) = false -> index x l = inl ValueError.
Proof.
  intros H. apply bool_decide_eq_false in H.
  induction l as [|y l IH]; [reflexivity|]. cbn [index].
  destruct (String.eqb y x) eqn:E.
  - apply String.eqb_eq in E. subst. exfalso. apply H. by left.
  - rewrite IH; [reflexivity|]. intros Hin. apply H. by right.
Qed.

(** Appending rows to a combo box. *)
Lemma append_rows (id : string) (l pre : list string) (g : widgets) :
  rows g !! id = Some pre ->
  rows (foldl (fun g cmd => append_text id cmd g) g l) !! id
    = Some (pre ++ l)%list.
Proof.
  revert g pre; induction l as [|x l IH]; intros g pre Hpre; cbn [foldl].
  - by rewrite app_nil_r.
  - rewrite (IH _ (pre ++ [x])%list).
    + by rewrite <- app_assoc.
    + cbn. rewrite Hpre. cbn. by rewrite lookup_insert_eq.
Qed.

Lemma sizing_box_keeps_rows (md : TexTextEleMetaData) (g : widgets) :
  rows (show_sizing_box md g) = rows g
  /\ active_row (show_sizing_box md g) = active_row g.
Proof. unfold show_sizing_box. by destruct (use_font_size md). Qed.

Section Dialog.

Variable ALL_TEX : list string.
Variable PDFLATEX : string.
Variable LABELS : list string.
Variable callback : Type.

(** X2: when the three boxes of [show] (lines 189 to 222) raise.  They
    are passed, and line 224 is reached, exactly when the command is
    one of [ALL_TEX] and the alignment one of [LABELS]; otherwise
    [list.index] raises [ValueError] there, with no sizing control
    touched.  Either way the command box then lists exactly [ALL_TEX],
    whatever it listed before. *)
Theorem show_raises_on_strangers
    (self : TexTextGuiBase callback) (h : store) (md : TexTextEleMetaData)
    (g : widgets) :
  h !! meta_data self = Some md ->
  exists g' r,
    show ALL_TEX LABELS callback self h g = Some (g', r)
    /\ (r = inr tt <->
        bool_decide (tex_command md ∈ ALL_TEX) = true
        /\ bool_decide (alignment md ∈ LABELS) = true)
    /\ (r <> inr tt ->
        r = inl ValueError
        /\ sensitive g' = sensitive g /\ active g' = active g
        /\ value g' = value g)
    /\ rows g' !! "cmb_cmd" = Some ALL_TEX.
Proof.
  intros Hmd. unfold show. rewrite Hmd.
  unfold show_command_box, show_alignment_box.
  pose proof (append_rows "cmb_cmd" ALL_TEX [] (remove_all "cmb_cmd" g)) as Hrows.
  cbn [app] in Hrows.
  assert (Hr0 : rows (remove_all "cmb_cmd" g) !! "cmb_cmd" = Some [])
    by (cbn; by rewrite lookup_insert_eq).
  specialize (Hrows Hr0).
  destruct (GuiFacts.append_rows_frame "cmb_cmd" ALL_TEX (remove_all "cmb_cmd" g))
    as (Hs & Ha & Hv). cbn in Hs, Ha, Hv.
  destruct (bool_decide (tex_command md ∈ ALL_TEX)) eqn:Hc.
  - destruct (GuiFacts.index_member _ _ Hc) as [i ->].
    destruct (bool_decide (alignment md ∈ LABELS)) eqn:Hl.
    + destruct (GuiFacts.index_member _ _ Hl) as [j ->].
      do 2 eexists. split; [reflexivity|].
      split; [tauto|]. split; [intros Hn; by destruct Hn|].
      rewrite (proj1 (sizing_box_keeps_rows md _)). exact Hrows.
    + rewrite (index_stranger _ _ Hl).
      do 2 eexists. split; [reflexivity|].
      split; [split; [discriminate | intros [_ ?]; discriminate]|].
      split; [|exact Hrows]. intros _. cbn. by rewrite Hs, Ha, Hv.
  - rewrite (index_stranger _ _ Hc).
    do 2 eexists. split; [reflexivity|].
    split; [split; [discriminate | intros [? _]; discriminate]|].
    split; [|exact Hrows]. intros _. cbn. by rewrite Hs, Ha, Hv.
Qed.

(** X3: the constructor makes the command box of [show] safe: with
    [PDFLATEX] among [ALL_TEX] and a known alignment, for every
    metadata object that went through [TexTextGuiBase.__init__] and for
    every state of the widgets, the three boxes of [show] (lines 189 to
    222) raise nothing, and the selected row of the command box is the
    row of the command the object then carries. *)
Theorem show_after_init
    (version_str : string) (node_meta_data : ref) (config : SettingsTexText)
    (svg_build_func : callback) (png_build_func : option callback)
    (h : store) (md : TexTextEleMetaData) (g : widgets) :
  h !! node_meta_data = Some md ->
  bool_decide (PDFLATEX ∈ ALL_TEX) = true ->
  bool_decide (alignment md ∈ LABELS) = true ->
  exists h' self md' g' i,
    __init__ ALL_TEX PDFLATEX callback version_str node_meta_data config
             svg_build_func png_build_func h = Some (h', self)
    /\ h' !! meta_data self = Some md'
    /\ show ALL_TEX LABELS callback self h' g = Some (g', inr tt)
    /\ active_row g' !! "cmb_cmd" = Some i
    /\ ALL_TEX !! i = Some (tex_command md').
Proof.
  intros Hmd Hp Hl. unfold __init__. rewrite Hmd.
  set (md' := if negb (bool_decide (tex_command md ∈ ALL_TEX))
              then set_tex_command PDFLATEX md else md).
  assert (Hc' : bool_decide (tex_command md' ∈ ALL_TEX) = true).
  { unfold md'. destruct (bool_decide (tex_command md ∈ ALL_TEX)) eqn:E; cbn;
      [exact E | exact Hp]. }
  assert (Hl' : bool_decide (alignment md' ∈ LABELS) = true).
  { unfold md'. by destruct (negb _). }
  destruct (GuiFacts.index_member _ _ Hc') as [i Hi].
  destruct (GuiFacts.index_member _ _ Hl') as [j Hj].
  eexists _, _, md', _, i. split; [reflexivity|]. cbn [meta_data].
  assert (Hh' : (if negb (bool_decide (tex_command md ∈ ALL_TEX))
                 then <[node_meta_data := set_tex_command PDFLATEX md]> h
                 else h) !! node_meta_data = Some md').
  { unfold md'. destruct (negb _); [by rewrite lookup_insert_eq | exact Hmd]. }
  split; [exact Hh'|].
  unfold show. cbn [meta_data]. rewrite Hh'.
  unfold show_command_box, show_alignment_box. rewrite Hi, Hj.
  split; [reflexivity|]. split; [|by apply index_lookup].
  rewrite (proj2 (sizing_box_keeps_rows md' _)). cbn.
  rewrite lookup_insert_ne by done. by rewrite lookup_insert_eq.
Qed.

End Dialog.

(** X4: the sizing box is local: apart from the six controls of the two
    groups it changes no sensitivity, apart from the two radio buttons
    no toggle, and apart from the two adjustments no value. *)
Theorem show_sizing_box_frame (md : TexTextEleMetaData) (g : widgets) (id : string) :
  (id ∉ (scale_controls ++ fontsize_controls)%list ->
     sensitive (show_sizing_box md g) !! id = sensitive g !! id)
  /\ (id ∉ ["rb_scale"; "rb_fontsize"] ->
     active (show_sizing_box md g) !! id = active g !! id)
  /\ (id ∉ ["adj_scale"; "adj_fontsize"] ->
     value (show_sizing_box md g) !! id = value g !! id).
Proof.
  unfold show_sizing_box, scale_controls, fontsize_controls.
  destruct (use_font_size md); cbn; repeat split; intros Hid;
    repeat (rewrite lookup_insert_ne; [|intros <-; apply Hid; set_solver]);
    reflexivity.
Qed.

Lemma init_keeps_supported_witness :
  exists self,
    __init__ all_tex "pdflatex" unit "2.0" 1%positive settings tt None
             {[ 1%positive := font_size_node ]}
    = Some ({[ 1%positive := font_size_node ]}, self).
Proof.
  apply (GuiFacts.init_keeps_supported_command all_tex "pdflatex" unit
           "2.0" 1%positive settings tt None
           {[ 1%positive := font_size_node ]} font_size_node);
    reflexivity.
Defined.

Lemma show_raises_witness :
  exists g' r,
    show all_tex labels unit dialog {[ 1%positive := unknown_command_node ]} blank
      = Some (g', r)
    /\ r = inl ValueError
    /\ rows g' !! "cmb_cmd" = Some all_tex.
Proof.
  destruct (show_raises_on_strangers all_tex labels unit dialog
              {[ 1%positive := unknown_command_node ]} unknown_command_node blank)
    as (g' & r & E & Hiff & Hne & Hrows); [reflexivity|].
  exists g', r. split; [exact E|]. split; [|exact Hrows].
  apply Hne. intros Hr. apply Hiff in Hr as [Hc _]. vm_compute in Hc.
  discriminate Hc.
Defined.

Lemma show_after_init_witness :
  exists h' self g',
    __init__ all_tex "pdflatex" unit "2.0" 1%positive settings tt None
             {[ 1%positive := unknown_command_node ]} = Some (h', self)
    /\ show all_tex labels unit self h' blank = Some (g', inr tt).
Proof.
  destruct (show_after_init all_tex "pdflatex" labels unit
              "2.0" 1%positive settings tt None
              {[ 1%positive := unknown_command_node ]} unknown_command_node blank)
    as (h' & self & md' & g' & i & E & _ & S & _); [reflexivity..|].
  exists h', self, g'. split; assumption.
Defined.

End GuiMore.

(* ===================================================================== *)
(** * Properties of the dialog for the executable paths *)
(* ===================================================================== *)

Module ExePathsFacts.

Import ExePaths.

Lemma entry_id_inj (c d : string) : entry_id c = entry_id d -> c = d.
Proof. unfold entry_id. intros H. by injection H. Qed.

(** The constructor loop creates no entry and removes none. *)
Lemma fill_keeps_ids (todo : list (string * string)) (ui : gmap string string)
    (pr : list string) (id : string) :
  is_Some ((fill todo ui pr).1 !! id) <-> is_Some (ui !! id).
Proof.
  revert ui pr; induction todo as [|[c p] todo IH]; intros ui pr; cbn [fill];
    [done|].
  destruct (ui !! entry_id c) as [t|] eqn:E; rewrite IH; [|done].
  destruct (decide (entry_id c = id)) as [<-|Hne].
  - rewrite lookup_insert_eq, E. split; eauto.
  - by rewrite lookup_insert_ne.
Qed.

(** It writes only to the entries of its commands. *)
Lemma fill_other (todo : list (string * string)) (ui : gmap string string)
    (pr : list string) (id : string) :
  (forall c, c ∈ todo.*1 -> entry_id c <> id) ->
  (fill todo ui pr).1 !! id = ui !! id.
Proof.
  revert ui pr; induction todo as [|[c p] todo IH]; intros ui pr Hid;
    cbn [fill]; [done|].
  assert (Hc : entry_id c <> id) by (apply Hid; cbn; set_solver).
  assert (Ht : forall d, d ∈ todo.*1 -> entry_id d <> id)
    by (intros d Hd; apply Hid; cbn; set_solver).
  destruct (ui !! entry_id c); rewrite IH by exact Ht; [|done].
  by rewrite lookup_insert_ne.
Qed.

(** After it, every entry that exists shows the path of its command. *)
Lemma fill_lookup (todo : list (string * string)) (ui : gmap string string)
    (pr : list string) (c p : string) :
  NoDup todo.*1 -> (c, p) ∈ todo -> is_Some (ui !! entry_id c) ->
  (fill todo ui pr).1 !! entry_id c = Some p.
Proof.
  revert ui pr; induction todo as [|[d q] todo IH]; intros ui pr Hnd Hin Hex;
    [by apply elem_of_nil in Hin|].
  cbn in Hnd. apply NoDup_cons in Hnd as [Hd Hnd].
  cbn [fill]. apply elem_of_cons in Hin as [[= -> ->]|Hin].
  - destruct Hex as [t ->].
    rewrite fill_other; [by rewrite lookup_insert_eq|].
    intros c' Hc' Heq. apply entry_id_inj in Heq. by subst.
  - destruct (ui !! entry_id d) eqn:E; apply IH; try done.
    destruct (decide (entry_id d = entry_id c)) as [->|Hne].
    + by rewrite lookup_insert_eq.
    + by rewrite lookup_insert_ne.
Qed.

(** The lines printed by the constructor: one for each command without
    an entry, in the order of the dictionary. *)
Lemma fill_printed (todo : list (string * string)) (ui : gmap string string)
    (pr : list string) :
  (fill todo ui pr).2
  = (pr ++ ((fun c => "Failed to set exe path for command " +:+ c)
              <$> filter (fun c => ui !! entry_id c = None) todo.*1))%list.
Proof.
  revert ui pr; induction todo as [|[c p] todo IH]; intros ui pr; cbn [fill].
  - by rewrite app_nil_r.
  - cbn [fmap list_fmap fst]. rewrite filter_cons.
    destruct (ui !! entry_id c) as [t|] eqn:E.
    + rewrite IH. rewrite decide_False by discriminate.
      f_equal. f_equal. apply list_filter_iff. intros d.
      destruct (decide (entry_id c = entry_id d)) as [Heq|Hne].
      * rewrite <- Heq, lookup_insert_eq, E. split; discriminate.
      * by rewrite lookup_insert_ne.
    + rewrite IH. rewrite decide_True by done.
      cbn. by rewrite <- app_assoc.
Qed.

(** X6: the constructor never raises: where the interface file has no entry
    for a command it prints one line, in the order of the dictionary,
    and no entry of another id is written. *)
Theorem init_reports_missing_entries
    (paths : list (string * string)) (ui : gmap string string) :
  printed (__init__ paths ui)
    = (fun c => "Failed to set exe path for command " +:+ c)
        <$> filter (fun c => ui !! entry_id c = None) paths.*1
  /\ exe_paths (__init__ paths ui) = paths
  /\ (forall id, is_Some (entries (__init__ paths ui) !! id) <-> is_Some (ui !! id))
  /\ (forall id, (forall c, c ∈ paths.*1 -> entry_id c <> id) ->
        entries (__init__ paths ui) !! id = ui !! id).
Proof.
  unfold __init__.
  pose proof (fill_printed paths ui []) as Hp.
  pose proof (fill_keeps_ids paths ui []) as Hk.
  pose proof (fill_other paths ui []) as Ho.
  destruct (fill paths ui []) as [e pr]. cbn in *.
  repeat split; try done; by apply Hk.
Qed.

(** What the loop of the OK button returns when no entry is missing. *)
Lemma read_back_all (entries : gmap string string) (todo : list (string * string)) :
  (forall c, c ∈ todo.*1 -> is_Some (entries !! entry_id c)) ->
  read_back entries todo
  = ((fun cp => (cp.1, default "" (entries !! entry_id cp.1))) <$> todo, None).
Proof.
  induction todo as [|[c p] todo IH]; intros Hex; cbn [read_back]; [done|].
  destruct (Hex c) as [t Ht]; [cbn; set_solver|]. rewrite Ht.
  rewrite IH by (intros d Hd; apply Hex; cbn; set_solver).
  cbn. by rewrite Ht.
Qed.

(** X7: the OK button without a missing entry: every value of the
    dictionary becomes the text of its entry, the keys and their order
    stay, and the dialog is hidden. *)
Theorem ok_reads_the_entries (self : DlgExePaths) :
  (forall c, c ∈ (exe_paths self).*1 -> is_Some (entries self !! entry_id c)) ->
  exists self',
    on_btn_ok_clicked self = (self', None)
    /\ visible self' = false
    /\ (exe_paths self').*1 = (exe_paths self).*1
    /\ (forall c p, (c, p) ∈ exe_paths self' ->
          entries self !! entry_id c = Some p).
Proof.
  intros Hex. unfold on_btn_ok_clicked. rewrite (read_back_all _ _ Hex).
  eexists. split; [reflexivity|]. cbn. split; [done|]. split.
  - rewrite <- list_fmap_compose. by apply list_fmap_ext.
  - intros c p Hin. apply list_elem_of_fmap in Hin as ([c' p'] & [= -> ->] & Hin).
    cbn. destruct (Hex c') as [t Ht]; [|by rewrite Ht].
    apply list_elem_of_fmap. by exists (c', p').
Qed.

(** X8: round trip: a dialog built for a dictionary whose commands all have
    an entry, shown and confirmed without an edit, leaves the
    dictionary as it was. *)
Theorem ok_without_edit_is_identity
    (paths : list (string * string)) (ui : gmap string string) :
  NoDup paths.*1 ->
  (forall c, c ∈ paths.*1 -> is_Some (ui !! entry_id c)) ->
  exists self',
    on_btn_ok_clicked (show (__init__ paths ui)) = (self', None)
    /\ exe_paths self' = paths
    /\ visible self' = false.
Proof.
  intros Hnd Hex. unfold __init__.
  pose proof (fun c p => fill_lookup paths ui [] c p Hnd) as Hl.
  destruct (fill paths ui []) as [e pr]. cbn in Hl.
  unfold on_btn_ok_clicked, show. cbn.
  rewrite read_back_all.
  - eexists. split; [reflexivity|]. cbn. split; [|done].
    rewrite <- (list_fmap_id paths) at 2. apply list_fmap_ext.
    intros i [c p] Hi. cbn.
    rewrite (Hl c p); [done| |].
    + apply list_elem_of_lookup. eauto.
    + apply Hex. apply list_elem_of_fmap. exists (c, p). split; [done|].
      apply list_elem_of_lookup. eauto.
  - intros c Hc. apply list_elem_of_fmap in Hc as ([c' p] & -> & Hin).
    cbn. rewrite (Hl c' p Hin); [eauto|].
    apply Hex. apply list_elem_of_fmap. by exists (c', p).
Qed.

(** X9: the OK button raises exactly when some command has no entry.  The
    dialog then stays on the screen, and the dictionary keeps its keys. *)
Theorem ok_raises_on_missing_entry (self : DlgExePaths) :
  ((on_btn_ok_clicked self).2 = Some AttributeError <->
     exists c, c ∈ (exe_paths self).*1 /\ entries self !! entry_id c = None)
  /\ ((on_btn_ok_clicked self).2 = Some AttributeError ->
      visible (on_btn_ok_clicked self).1 = visible self)
  /\ (exe_paths (on_btn_ok_clicked self).1).*1 = (exe_paths self).*1.
Proof.
  unfold on_btn_ok_clicked.
  assert (H : forall todo,
    ((read_back (entries self) todo).2 = Some AttributeError <->
       exists c, c ∈ todo.*1 /\ entries self !! entry_id c = None)
    /\ ((read_back (entries self) todo).1).*1 = todo.*1).
  { induction todo as [|[c p] todo [IH1 IH2]]; cbn [read_back].
    - split; [|done]. split; [discriminate|]. intros (c & Hc & _).
      by apply elem_of_nil in Hc.
    - destruct (entries self !! entry_id c) as [t|] eqn:E.
      + destruct (read_back (entries self) todo) as [rest r]. cbn in *.
        split; [|by rewrite IH2]. rewrite IH1. split.
        * intros (d & Hd & Hn). exists d. split; [set_solver | done].
        * intros (d & Hd & Hn). apply elem_of_cons in Hd as [->|Hd];
            [congruence|]. by exists d.
      + cbn. split; [|done]. split; [|done]. intros _. exists c.
        split; [set_solver | done]. }
  destruct (H (exe_paths self)) as [H1 H2].
  destruct (read_back (entries self) (exe_paths self)) as [paths [[]|]];
    cbn in *; repeat split; try done; try tauto.
Qed.

Lemma ok_reads_the_entries_witness :
  exists self',
    on_btn_ok_clicked (edit "ed_typst" "/opt/typst" (show (__init__ some_paths some_ui)))
      = (self', None)
    /\ exe_paths self'
       = [("pdflatex", "/usr/bin/pdflatex"); ("typst", "/opt/typst")].
Proof.
  destruct (ok_reads_the_entries
              (edit "ed_typst" "/opt/typst" (show (__init__ some_paths some_ui))))
    as (self' & E & _ & _ & _).
  - intros c Hc. cbn in Hc.
    apply elem_of_cons in Hc as [->|Hc]; [eexists; by vm_compute|].
    apply elem_of_cons in Hc as [->|Hc]; [eexists; by vm_compute|].
    by apply elem_of_nil in Hc.
  - exists self'. split; [exact E|].
    vm_compute in E. by injection E as <-.
Defined.

Lemma ok_without_edit_witness :
  exists self',
    on_btn_ok_clicked (show (__init__ some_paths some_ui)) = (self', None)
    /\ exe_paths self' = some_paths.
Proof.
  destruct (ok_without_edit_is_identity some_paths some_ui)
    as (self' & E & P & _).
  - apply (bool_decide_unpack _). by vm_compute.
  - intros c Hc. cbn in Hc.
    apply elem_of_cons in Hc as [->|Hc]; [eexists; by vm_compute|].
    apply elem_of_cons in Hc as [->|Hc]; [eexists; by vm_compute|].
    by apply elem_of_nil in Hc.
  - exists self'. by split.
Defined.

End ExePathsFacts.

(* ===================================================================== *)
(** * More on the harness *)
(* ===================================================================== *)

Module HarnessMore.

Import Py Harness.

(** ** The working directory *)

Section Scoped.

Variable mkdtemp_name : filesystem -> string.
Variable getcwd : string.

Abbreviation tempdir := (Run.tempdir mkdtemp_name).
Abbreviation entered_world := (Run.entered_world mkdtemp_name).

Lemma with_unfold (A : Type) (suffix : string) (body : TempDirectory.t -> M A)
    (w : world) :
  TempDirectory.with_ mkdtemp_name getcwd suffix body w
  = let b := body (tempdir suffix w) (entered_world w) in
    let c := rmtree (mkdtemp_name (fs w)) (fs b.1) in
    ({| fs := c.1; trace := trace b.1 |},
     match c.2 with
     | inl e => inl e
     | inr _ => b.2
     end).
Proof.
  unfold TempDirectory.with_, TempDirectory.__enter__, TempDirectory.mkdtemp.
  cbn. fold (tempdir suffix w) (entered_world w).
  destruct (body _ _) as [w2 r]. unfold TempDirectory.__exit__. cbn.
  by destruct (rmtree _ _) as [f [e|[]]].
Qed.

(** X10: leaving the block touches nothing outside the working directory: a
    path that is neither the directory nor below it is a directory
    (a file) after the block exactly if it was one when the body ended,
    and no process is started by entering or leaving. *)
Theorem with_cleanup_is_local
    (A : Type) (suffix : string) (body : TempDirectory.t -> M A)
    (w : world) (p : string) :
  inside (mkdtemp_name (fs w)) p = false ->
  let b := body (tempdir suffix w) (entered_world w) in
  let out := TempDirectory.with_ mkdtemp_name getcwd suffix body w in
  trace out.1 = trace b.1
  /\ (p ∈ dirs (fs out.1) <-> p ∈ dirs (fs b.1))
  /\ (p ∈ files (fs out.1) <-> p ∈ files (fs b.1)).
Proof.
  intros Hp. cbn zeta. rewrite with_unfold. cbn zeta. cbn [fst snd fs trace].
  split; [reflexivity|]. unfold rmtree.
  case_bool_decide; cbn; [|tauto].
  rewrite !elem_of_filter. tauto.
Qed.

(** X11: the regular exit: when the directory still exists at the end of the
    body, the block hands on what the body returned or raised, and
    nothing that is the directory or below it is left. *)
Theorem with_regular_exit
    (A : Type) (suffix : string) (body : TempDirectory.t -> M A) (w : world) :
  let b := body (tempdir suffix w) (entered_world w) in
  let out := TempDirectory.with_ mkdtemp_name getcwd suffix body w in
  mkdtemp_name (fs w) ∈ dirs (fs b.1) ->
  out.2 = b.2
  /\ forall p, inside (mkdtemp_name (fs w)) p = true ->
       (p ∉ dirs (fs out.1)) /\ (p ∉ files (fs out.1)).
Proof.
  cbn zeta. intros Hd. rewrite with_unfold. cbn zeta. cbn [fst snd fs].
  unfold rmtree. rewrite bool_decide_eq_true_2 by exact Hd. cbn.
  split; [reflexivity|]. intros p Hp.
  split; rewrite elem_of_filter; intros [Hin _]; congruence.
Qed.

(** X12: the irregular one: when the body has itself removed the directory,
    leaving the block raises [FileNotFoundError], also when the body had
    returned normally or raised something else. *)
Theorem with_raises_when_directory_is_gone
    (A : Type) (suffix : string) (body : TempDirectory.t -> M A) (w : world) :
  let b := body (tempdir suffix w) (entered_world w) in
  let out := TempDirectory.with_ mkdtemp_name getcwd suffix body w in
  mkdtemp_name (fs w) ∉ dirs (fs b.1) ->
  out.2 = inl (FileNotFoundError (mkdtemp_name (fs w)))
  /\ fs out.1 = fs b.1.
Proof.
  cbn zeta. intros Hd. rewrite with_unfold. cbn zeta. cbn [fst snd fs].
  unfold rmtree. rewrite bool_decide_eq_false_2 by exact Hd. cbn.
  split; [reflexivity|]. by destruct (fs _).
Qed.

End Scoped.

(** ** [svg_to_png] *)

Section Rendering.

Variable os_name : string.
Variable run_process : list string -> filesystem -> filesystem.

(** X13: nothing is started on bad input: without the svg file, or with
    options that cannot be formatted or name no known render area,
    [svg_to_png] raises and leaves the file system and the list of
    started processes as they were. *)
Theorem svg_to_png_starts_nothing_on_bad_input
    (svg png : string) (kw : gmap string json) (w : world) :
  svg ∉ files (fs w) \/ (exists e, export_options kw = inl e) ->
  exists e, svg_to_png os_name run_process svg png kw w = (w, inl e).
Proof.
  intros H. unfold svg_to_png, mbind, isfile, massert, lift, assert. cbn.
  case_bool_decide as Hsvg; cbn; [|by eexists].
  destruct H as [H|[e He]]; [done|]. rewrite He. by eexists.
Qed.

(** X14: what a normal return means: the svg file was there, the options
    were well-formed, exactly one process was started, namely Inkscape
    with the png export type, the options, the output file and the
    input file, in this order, and the png file exists afterwards. *)
Theorem svg_to_png_postcondition
    (svg png : string) (kw : gmap string json) (w w' : world) :
  svg_to_png os_name run_process svg png kw w = (w', inr tt) ->
  exists options,
    export_options kw = inr options
    /\ svg ∈ files (fs w)
    /\ trace w' = (trace w ++ [[INKSCAPE_EXE os_name; "--export-type=png"]
                                ++ options
                                ++ ["--export-filename=" +:+ png; svg]])%list
    /\ fs w' = run_process ([INKSCAPE_EXE os_name; "--export-type=png"]
                              ++ options
                              ++ ["--export-filename=" +:+ png; svg])%list (fs w)
    /\ png ∈ files (fs w').
Proof.
  unfold svg_to_png, mbind, isfile, massert, lift, assert, call. cbn.
  case_bool_decide as Hsvg; cbn; [|discriminate].
  destruct (export_options kw) as [e|options]; cbn; [discriminate|].
  case_bool_decide as Hpng; cbn; [|discriminate].
  intros [= <-]. exists options. cbn. by repeat split.
Qed.

End Rendering.

(** X15: a resolution or a height that counts as false ([None], [0], [0.0],
    [False], an empty string, list or object) is ignored: the options
    are those of a call without it. *)
Theorem export_options_ignore_false_values (kw : gmap string json) :
  (truthy (kw_dpi kw) = false ->
     export_options kw = export_options (delete "dpi" kw))
  /\ (truthy (kw_height kw) = false ->
     export_options kw = export_options (delete "height" kw)).
Proof.
  split; intros H; unfold export_options, kw_dpi, kw_height, kw_render_area in *.
  - rewrite lookup_delete_eq, !lookup_delete_ne by done. cbn [default truthy].
    by rewrite H.
  - rewrite lookup_delete_eq, !lookup_delete_ne by done. cbn [default truthy].
    by rewrite H.
Qed.

(** ** [images_are_same] *)

Section Compare.

Variable py_int : string -> option Z.

(** X16: [True] is never returned lightly: it means that the size test
    passed, that [compare] ended with code 0 or 1, that its error
    stream reads as a number, that this number is within the (possibly
    halved) absolute tolerance, and the message names that number. *)
Theorem same_means_compared
    (im1 im2 : image) (size_abs_tol : Z) (size_rel_tol : float)
    (pixel_diff_abs_tol : Z) (pixel_diff_rel_tol : float)
    (proc : process) (msg : message) :
  images_are_same py_int im1 im2 size_abs_tol size_rel_tol
                  pixel_diff_abs_tol pixel_diff_rel_tol proc = inr (true, msg) ->
  sizes_too_different im1 im2 size_abs_tol size_rel_tol = inr false
  /\ (returncode proc = 0 \/ returncode proc = 1)%Z
  /\ exists diff_pixels,
       py_int (stderr proc) = Some diff_pixels
       /\ msg = DiffPixels diff_pixels
       /\ (diff_pixels <= halved im1 im2 pixel_diff_abs_tol)%Z.
Proof.
  unfold images_are_same.
  destruct (sizes_too_different _ _ _ _) as [e|[|]]; cbn [bind];
    [discriminate..|].
  unfold compare_verdict. case_bool_decide as Hrc;
    [|destruct (negb _); [discriminate|]; destruct (negb _); discriminate].
  destruct (py_int _) as [d|]; [|discriminate].
  destruct (d >? _)%Z eqn:Habs; [discriminate|].
  destruct (int_mul_float _ _) as [e|bound]; cbn [bind]; [discriminate|].
  destruct (Z_gt_float d bound); [discriminate|].
  intros [= <-]. split; [reflexivity|]. split; [set_solver|].
  exists d. repeat split. rewrite Z.gtb_ltb in Habs. by apply Z.ltb_ge in Habs.
Qed.

(** X17: a second image that is wider or higher than the first by more than
    [size_abs_tol] pixels is refused on its size alone: the answer does
    not depend on the relative tolerance, the pixel tolerances or the
    outcome of [compare]. *)
Theorem larger_second_image_is_refused
    (im1 im2 : image) (size_abs_tol : Z) (size_rel_tol : float)
    (pixel_diff_abs_tol : Z) (pixel_diff_rel_tol : float) (proc : process) :
  (width im2 - width im1 > size_abs_tol
   \/ height im2 - height im1 > size_abs_tol)%Z ->
  images_are_same py_int im1 im2 size_abs_tol size_rel_tol
                  pixel_diff_abs_tol pixel_diff_rel_tol proc
  = inr (false, TooDifferentSizes (size im1) (size im2)).
Proof.
  intros H. unfold images_are_same, sizes_too_different, dw, dh.
  destruct (width im2 - width im1 >? size_abs_tol)%Z eqn:Ew; [reflexivity|].
  destruct (height im2 - height im1 >? size_abs_tol)%Z eqn:Eh; [reflexivity|].
  rewrite Z.gtb_ltb in Ew, Eh. apply Z.ltb_ge in Ew, Eh. lia.
Qed.

(** X18: a larger absolute tolerance never turns agreement into
    disagreement. *)
Theorem same_is_monotone_in_tolerance
    (im1 im2 : image) (size_abs_tol : Z) (size_rel_tol : float)
    (tol tol' : Z) (pixel_diff_rel_tol : float)
    (proc : process) (msg : message) :
  (tol <= tol')%Z ->
  images_are_same py_int im1 im2 size_abs_tol size_rel_tol
                  tol pixel_diff_rel_tol proc = inr (true, msg) ->
  images_are_same py_int im1 im2 size_abs_tol size_rel_tol
                  tol' pixel_diff_rel_tol proc = inr (true, msg).
Proof.
  intros Hle. unfold images_are_same.
  destruct (sizes_too_different _ _ _ _) as [e|[|]]; cbn [bind];
    [discriminate..|].
  unfold compare_verdict. case_bool_decide as Hrc;
    [|destruct (negb _); [discriminate|]; destruct (negb _); discriminate].
  destruct (py_int _) as [d|]; [|discriminate].
  destruct (d >? halved im1 im2 tol)%Z eqn:Habs; [discriminate|].
  assert (Hh : (halved im1 im2 tol <= halved im1 im2 tol')%Z).
  { unfold halved. destruct (downsample im1 im2); [|exact Hle].
    apply Z.div_le_mono; lia. }
  replace (d >? halved im1 im2 tol')%Z with false; [done|].
  symmetry. rewrite Z.gtb_ltb in *. apply Z.ltb_ge. apply Z.ltb_ge in Habs. lia.
Qed.

(** X19: two images of one size on which [compare] counts no differing
    pixel are the same under all non-negative tolerances (unless the
    extent is too large for a float). *)
Theorem equal_images_are_same
    (im1 im2 : image) (size_abs_tol : Z) (size_rel_tol : float)
    (pixel_diff_abs_tol : Z) (pixel_diff_rel_tol : float) (proc : process) :
  size im1 = size im2 ->
  (0 <= width im1)%Z -> (0 <= height im1)%Z ->
  (0 <= size_abs_tol)%Z -> not_negative size_rel_tol = true ->
  (0 <= pixel_diff_abs_tol)%Z -> not_negative pixel_diff_rel_tol = true ->
  (returncode proc = 0 \/ returncode proc = 1)%Z ->
  py_int (stderr proc) = Some 0%Z ->
  images_are_same py_int im1 im2 size_abs_tol size_rel_tol
                  pixel_diff_abs_tol pixel_diff_rel_tol proc
    = inr (true, DiffPixels 0)
  \/ images_are_same py_int im1 im2 size_abs_tol size_rel_tol
                     pixel_diff_abs_tol pixel_diff_rel_tol proc
    = inl OverflowError.
Proof.
  intros Hsz Hw Hh Hsa Hsr Hpa Hpr Hrc Hint.
  unfold size in Hsz. injection Hsz as Ew Eh.
  unfold images_are_same, sizes_too_different, halved, downsample, dw, dh, w, h.
  rewrite <- Ew, <- Eh, !Z.sub_diag, !Z.min_id. cbn [Z.eqb negb orb].
  replace (0 >? size_abs_tol)%Z with false
    by (symmetry; rewrite Z.gtb_ltb; apply Z.ltb_ge; lia).
  destruct (HarnessFacts.int_mul_float_cases (width im1) size_rel_tol)
    as [->|[bw Ebw]]; [by right|].
  rewrite Ebw. cbn [bind].
  rewrite (HarnessFacts.Z_gt_float_sign 0 bw) by
    (first [lia | exact (HarnessFacts.int_mul_float_sign _ _ _ Hw Hsr Ebw)]).
  destruct (HarnessFacts.int_mul_float_cases (height im1) size_rel_tol)
    as [->|[bh Ebh]]; [by right|].
  rewrite Ebh. cbn [bind ret].
  rewrite (HarnessFacts.Z_gt_float_sign 0 bh) by
    (first [lia | exact (HarnessFacts.int_mul_float_sign _ _ _ Hh Hsr Ebh)]).
  unfold compare_verdict.
  rewrite bool_decide_eq_true_2 by (destruct Hrc as [-> | ->]; set_solver).
  rewrite Hint.
  replace (0 >? pixel_diff_abs_tol)%Z with false
    by (symmetry; rewrite Z.gtb_ltb; apply Z.ltb_ge; lia).
  destruct (HarnessFacts.int_mul_float_cases (width im1 * height im1)
              pixel_diff_rel_tol) as [->|[b Eb]]; [by right|].
  rewrite Eb. cbn [bind].
  assert (Hwh : (0 <= width im1 * height im1)%Z) by nia.
  rewrite (HarnessFacts.Z_gt_float_sign 0 b) by
    (first [lia | exact (HarnessFacts.int_mul_float_sign _ _ _ Hwh Hpr Eb)]).
  by left.
Qed.

End Compare.

(** ** Instances *)

Lemma with_cleanup_is_local_witness :
  inside "/tmp/tmp0" "/home/a" = false
  /\ ("/home/a" ∈ dirs (fs (TempDirectory.with_ Run.tmp_name "/" "t" Run.idle Run.bare).1)
      <-> "/home/a" ∈ dirs (fs (Run.idle (Run.tempdir Run.tmp_name "t" Run.bare)
                                         (Run.entered_world Run.tmp_name Run.bare)).1)).
Proof.
  split; [reflexivity|].
  exact (proj1 (proj2 (with_cleanup_is_local Run.tmp_name "/" unit "t" Run.idle
                         Run.bare "/home/a" eq_refl))).
Defined.

Lemma with_regular_exit_witness :
  (TempDirectory.with_ Run.tmp_name "/" "t" Run.idle Run.bare).2 = inr tt
  /\ "/tmp/tmp0/1.png" ∉ files (fs (TempDirectory.with_ Run.tmp_name "/" "t"
                                       Run.idle Run.bare).1).
Proof.
  destruct (with_regular_exit Run.tmp_name "/" unit "t" Run.idle Run.bare)
    as [Hr Hc].
  - apply (bool_decide_unpack _). by vm_compute.
  - split; [exact Hr|]. exact (proj2 (Hc "/tmp/tmp0/1.png" eq_refl)).
Defined.

Lemma with_raises_witness :
  (TempDirectory.with_ Run.tmp_name "/" "t" Run.wipe Run.bare).2
  = inl (FileNotFoundError "/tmp/tmp0").
Proof.
  refine (proj1 (with_raises_when_directory_is_gone Run.tmp_name "/" unit "t"
                   Run.wipe Run.bare _)).
  cbn. set_solver.
Defined.

Lemma svg_to_png_bad_input_witness :
  exists e,
    svg_to_png "posix" Run.exporting "m.svg" "/tmp/tmp0/1.png" Run.odd_area
               Run.case_world
    = (Run.case_world, inl e).
Proof.
  apply svg_to_png_starts_nothing_on_bad_input. right.
  eexists. vm_compute. reflexivity.
Defined.

Lemma svg_to_png_postcondition_witness :
  exists w' options,
    svg_to_png "posix" Run.exporting "m.svg" "/tmp/tmp0/1.png" ∅ Run.case_world
    = (w', inr tt)
    /\ export_options ∅ = inr options
    /\ "/tmp/tmp0/1.png" ∈ files (fs w').
Proof.
  destruct (svg_to_png "posix" Run.exporting "m.svg" "/tmp/tmp0/1.png" ∅
              Run.case_world) as [w' r] eqn:E.
  assert (Hr : r = inr tt).
  { vm_compute in E. by injection E as _ <-. }
  subst r.
  destruct (svg_to_png_postcondition _ _ _ _ _ _ _ E) as (o & Ho & _ & _ & _ & Hp).
  exists w', o. by repeat split.
Defined.

Lemma same_means_compared_witness :
  images_are_same decimal big big default_size_abs_tol default_size_rel_tol
    run_pixel_diff_abs_tol run_pixel_diff_rel_tol thirty
  = inr (true, DiffPixels 30)
  /\ (returncode thirty = 0 \/ returncode thirty = 1)%Z.
Proof.
  assert (E : images_are_same decimal big big default_size_abs_tol
                default_size_rel_tol run_pixel_diff_abs_tol
                run_pixel_diff_rel_tol thirty = inr (true, DiffPixels 30))
    by (vm_compute; reflexivity).
  split; [exact E|].
  exact (proj1 (proj2 (same_means_compared _ _ _ _ _ _ _ _ _ E))).
Defined.

Lemma larger_second_image_witness :
  (width big - width tiny > default_size_abs_tol)%Z
  /\ images_are_same decimal tiny big default_size_abs_tol default_size_rel_tol
       run_pixel_diff_abs_tol run_pixel_diff_rel_tol Run.none_differ
     = inr (false, TooDifferentSizes (size tiny) (size big)).
Proof.
  assert (H : (width big - width tiny > default_size_abs_tol)%Z)
    by (vm_compute; reflexivity).
  split; [exact H|].
  apply larger_second_image_is_refused. by left.
Defined.

Lemma same_is_monotone_witness :
  images_are_same decimal big big default_size_abs_tol default_size_rel_tol
    60 run_pixel_diff_rel_tol thirty
  = inr (true, DiffPixels 30).
Proof.
  apply (same_is_monotone_in_tolerance decimal big big default_size_abs_tol
           default_size_rel_tol run_pixel_diff_abs_tol 60).
  - unfold run_pixel_diff_abs_tol. lia.
  - vm_compute. reflexivity.
Defined.

Lemma equal_images_witness :
  images_are_same decimal big big default_size_abs_tol default_size_rel_tol
    default_pixel_diff_abs_tol default_pixel_diff_rel_tol Run.none_differ
    = inr (true, DiffPixels 0)
  \/ images_are_same decimal big big default_size_abs_tol default_size_rel_tol
       default_pixel_diff_abs_tol default_pixel_diff_rel_tol Run.none_differ
    = inl OverflowError.
Proof.
  apply equal_images_are_same; try reflexivity; try (by vm_compute).
  by left.
Defined.

End HarnessMore.

(* ===================================================================== *)
(** * Properties of a compatibility run *)
(* ===================================================================== *)

Module RunFacts.

Import Py Harness Run.

(** ** The render block *)

(** X20: a block that cannot be read as one is refused: a truthy value that
    is no object raises [TypeError], and an object without the flag
    raises [KeyError]; a block that counts as false selects nothing. *)
Theorem render_options_on_odd_blocks :
  (forall v, truthy v = true -> (forall m, v <> JObj m) ->
     render_options v = inl TypeError)
  /\ (forall m, m <> ∅ -> m !! "scale-is-preserved" = None ->
       render_options (JObj m) = inl (KeyError "scale-is-preserved"))
  /\ (forall v, truthy v = false -> render_options v = inr ∅).
Proof.
  split; [|split].
  - intros v Ht Hno. unfold render_options. rewrite Ht.
    destruct v; try reflexivity. by destruct (Hno m).
  - intros m Hne Hk. unfold render_options. cbn.
    rewrite bool_decide_eq_false_2 by exact Hne. cbn. by rewrite Hk.
  - intros v Ht. unfold render_options. by rewrite Ht.
Qed.

(** X21: the default render area depends on whether there is a block: with
    none (or one that counts as false) the drawing is exported, with
    the option for it and no other; with a block that does not name an
    area the document is exported, and the option for the drawing is
    absent. *)
Theorem render_area_defaults :
  (forall v, truthy v = false ->
     (let* o := render_options v in export_options o)
     = inr ["--export-area-drawing"])
  /\ (forall m o l, m <> ∅ -> m !! "render-area" = None ->
       render_options (JObj m) = inr o -> export_options o = inr l ->
       kw_render_area o = JStr "document" /\ "--export-area-drawing" ∉ l).
Proof.
  split.
  - intros v Ht. unfold render_options. rewrite Ht. reflexivity.
  - intros m o l Hne Ha. unfold render_options. cbn [truthy].
    rewrite bool_decide_eq_false_2 by exact Hne. cbn [negb].
    destruct (getitem (JObj m) "scale-is-preserved") as [e|p]; cbn [bind];
      [discriminate|].
    assert (Harea : forall o0 : gmap string json,
              kw_render_area
                (<["render_area" := default (JStr "document") (m !! "render-area")]> o0)
              = JStr "document").
    { intros o0. unfold kw_render_area. by rewrite lookup_insert_eq, Ha. }
    intros Ho Hl.
    assert (Hk : kw_render_area o = JStr "document").
    { destruct (truthy p); destruct (assert _) as [e|[]]; cbn in Ho;
        try discriminate; injection Ho as <-; apply Harea. }
    split; [exact Hk|].
    unfold export_options in Hl. rewrite Hk in Hl.
    destruct (truthy (kw_dpi o)).
    + destruct (format_d (kw_dpi o)) as [e|d]; cbn in Hl; [discriminate|].
      destruct (truthy (kw_height o)).
      * destruct (format_d (kw_height o)) as [e|d']; cbn in Hl; [discriminate|].
        injection Hl as <-. intros Hin.
        repeat (apply elem_of_cons in Hin as [Hin|Hin];
                [vm_compute in Hin; discriminate Hin|]).
        by apply elem_of_nil in Hin.
      * cbn in Hl. injection Hl as <-. intros Hin.
        repeat (apply elem_of_cons in Hin as [Hin|Hin];
                [vm_compute in Hin; discriminate Hin|]).
        by apply elem_of_nil in Hin.
    + cbn in Hl. destruct (truthy (kw_height o)).
      * destruct (format_d (kw_height o)) as [e|d']; cbn in Hl; [discriminate|].
        injection Hl as <-. intros Hin.
        repeat (apply elem_of_cons in Hin as [Hin|Hin];
                [vm_compute in Hin; discriminate Hin|]).
        by apply elem_of_nil in Hin.
      * cbn in Hl. injection Hl as <-. intros Hin. by apply elem_of_nil in Hin.
Qed.

(** ** The run up to the first rendering *)

Section Run.

Variable os_name : string.
Variable run_process : list string -> filesystem -> filesystem.
Variable mkdtemp_name : filesystem -> string.
Variable getcwd : string.
Variable json_load : string -> filesystem -> result json.
Variable A : Type.
Variable edit_and_compare : json -> string -> gmap string json -> M A.

Abbreviation run :=
  (is_current_version_compatible os_name run_process mkdtemp_name getcwd
     json_load A edit_and_compare).

Lemma entry_checks
    (test_id svg_original svg_modified json_config converter : string)
    (w : world) :
  admitted svg_original svg_modified json_config converter w = false ->
  run test_id svg_original svg_modified json_config converter w
  = (w, inl AssertionError).
Proof.
  unfold admitted, is_current_version_compatible, mbind, isfile, massert,
    lift, assert. cbn.
  destruct (bool_decide (svg_original ∈ _)); cbn; [|done].
  destruct (bool_decide (svg_modified ∈ _)); cbn; [|done].
  destruct (bool_decide (json_config ∈ _)); cbn; [|done].
  destruct (bool_decide (converter ∈ _)); cbn; [discriminate|done].
Qed.

(** X22: a run that fails an entry check (one of the three files is missing,
    or the converter is not one of the three known) raises
    [AssertionError] at once: no directory is made, no process is
    started, the world is as before. *)
Theorem run_refused_at_entry
    (test_id svg_original svg_modified json_config converter : string)
    (w : world) :
  admitted svg_original svg_modified json_config converter w = false ->
  run test_id svg_original svg_modified json_config converter w
  = (w, inl AssertionError).
Proof. apply entry_checks. Qed.

(** X23: no run leaves its working directory behind: either the run was
    refused at entry and the world is untouched, or the directory it
    made is gone when it ends, whatever the edit and the comparison
    did and however the run ended. *)
Theorem run_leaves_no_directory
    (test_id svg_original svg_modified json_config converter : string)
    (w : world) :
  let out := run test_id svg_original svg_modified json_config converter w in
  out = (w, inl AssertionError)
  \/ mkdtemp_name (fs w) ∉ dirs (fs out.1).
Proof.
  cbn zeta.
  destruct (admitted svg_original svg_modified json_config converter w) eqn:Ha.
  - right. revert Ha.
    unfold admitted, is_current_version_compatible, mbind, isfile, massert,
      lift, assert. cbn -[TempDirectory.with_].
    destruct (bool_decide (svg_original ∈ _)); cbn -[TempDirectory.with_]; [|discriminate].
    destruct (bool_decide (svg_modified ∈ _)); cbn -[TempDirectory.with_]; [|discriminate].
    destruct (bool_decide (json_config ∈ _)); cbn -[TempDirectory.with_]; [|discriminate].
    destruct (bool_decide (converter ∈ _)); cbn -[TempDirectory.with_]; [|discriminate].
    intros _. rewrite HarnessMore.with_unfold.
    cbn zeta. cbn [fst fs]. apply HarnessFacts.rmtree_removes.
  - left. by apply entry_checks.
Qed.

(** X24: whatever goes wrong before the first rendering (the configuration
    cannot be loaded, it has no [check] or no [render] entry, or the
    render block is refused) ends an admitted run with that very
    exception; no process has been started, and the working directory
    is removed again. *)
Theorem run_fails_before_rendering
    (test_id svg_original svg_modified json_config converter : string)
    (w : world) (e : exn) :
  admitted svg_original svg_modified json_config converter w = true ->
  render_plan json_load json_config (fs (entered_world mkdtemp_name w)) = inl e ->
  let out := run test_id svg_original svg_modified json_config converter w in
  out.2 = inl e
  /\ trace out.1 = trace w
  /\ files (fs out.1)
     = filter (fun p => inside (mkdtemp_name (fs w)) p = false) (files (fs w))
  /\ mkdtemp_name (fs w) ∉ dirs (fs out.1).
Proof.
  intros Ha Hplan. cbn zeta.
  revert Ha.
  unfold admitted, is_current_version_compatible, mbind, isfile, massert,
    lift, assert. cbn -[TempDirectory.with_].
  destruct (bool_decide (svg_original ∈ _)); cbn -[TempDirectory.with_]; [|discriminate].
  destruct (bool_decide (svg_modified ∈ _)); cbn -[TempDirectory.with_]; [|discriminate].
  destruct (bool_decide (json_config ∈ _)); cbn -[TempDirectory.with_]; [|discriminate].
  destruct (bool_decide (converter ∈ _)); cbn -[TempDirectory.with_]; [|discriminate].
  intros _. rewrite HarnessMore.with_unfold. cbn zeta.
  unfold render_plan in Hplan. unfold entered_world, tempdir in *.
  cbn [fs trace] in *.
  assert (Hclean :
    rmtree (mkdtemp_name (fs w))
           {| dirs := {[mkdtemp_name (fs w)]} ∪ dirs (fs w);
              files := files (fs w) |}
    = ({| dirs := filter (fun p => inside (mkdtemp_name (fs w)) p = false)
                         ({[mkdtemp_name (fs w)]} ∪ dirs (fs w));
          files := filter (fun p => inside (mkdtemp_name (fs w)) p = false)
                          (files (fs w)) |}, ret tt)).
  { unfold rmtree. cbn. by rewrite bool_decide_eq_true_2 by set_solver. }
  assert (Hgone :
    mkdtemp_name (fs w)
      ∉ filter (fun p => inside (mkdtemp_name (fs w)) p = false)
               ({[mkdtemp_name (fs w)]} ∪ dirs (fs w))).
  { rewrite elem_of_filter. intros [Hin _]. unfold inside in Hin.
    by rewrite String.eqb_refl in Hin. }
  destruct (json_load _ _) as [e0|config]; cbn [bind] in Hplan;
    cbn [fst snd fs trace].
  { injection Hplan as ->. rewrite Hclean. by cbn. }
  destruct (getitem config "check") as [e0|check]; cbn [bind] in Hplan |- *;
    cbn [fst snd fs trace].
  { injection Hplan as ->. rewrite Hclean. by cbn. }
  destruct (getitem check "render") as [e0|cr]; cbn [bind] in Hplan |- *;
    cbn [fst snd fs trace].
  { injection Hplan as ->. rewrite Hclean. by cbn. }
  destruct (render_options cr) as [e0|o]; [|discriminate Hplan];
    cbn [fst snd fs trace].
  injection Hplan as ->. rewrite Hclean. by cbn.
Qed.

End Run.

(** ** The arguments of the edit *)

Section Args.

Variable EXTENSION_DIR : string.
Variable snippet_dir : string.
Variable fd_isfile : Z -> filesystem -> result bool.

Abbreviation default_file := (extension_dir_preamble_file EXTENSION_DIR).

Lemma lookup_merged (original modified : gmap string json) (k : string) :
  (modified ∪ original) !! k
  = match modified !! k with
    | Some v => Some v
    | None => original !! k
    end.
Proof.
  rewrite lookup_union. destruct (modified !! k), (original !! k); reflexivity.
Qed.

(** The choice for a preamble file named by a string. *)
Lemma preamble_file_of_string (args : gmap string json) (f : filesystem) (s : string) :
  args !! "preamble-file" = Some (JStr s) ->
  preamble_file EXTENSION_DIR snippet_dir fd_isfile args f
  = inr (JStr (if String.eqb s "" then default_file
               else if bool_decide (s ∈ files f) then s
               else if bool_decide (join snippet_dir s ∈ files f)
                    then join snippet_dir s
                    else default_file)).
Proof.
  intros E. unfold preamble_file. rewrite E. cbn [truthy].
  destruct (String.eqb s ""); cbn; [reflexivity|].
  destruct (bool_decide (s ∈ files f)); cbn; [reflexivity|].
  by destruct (bool_decide (join snippet_dir s ∈ files f)).
Qed.

Lemma mod_args_of (original modified : gmap string json) (f : filesystem) (p : json) :
  preamble_file EXTENSION_DIR snippet_dir fd_isfile (modified ∪ original) f = inr p ->
  exists a,
    mod_args EXTENSION_DIR snippet_dir fd_isfile original modified f = inr a
    /\ a !! "preamble-file" = Some p
    /\ a !! "alignment"
       = Some (default (JStr "middle center") ((modified ∪ original) !! "alignment"))
    /\ forall k, k <> "preamble-file" -> k <> "alignment" ->
         a !! k = (modified ∪ original) !! k.
Proof.
  intros Hp. unfold mod_args. rewrite Hp. cbn [bind ret].
  eexists. split; [reflexivity|].
  case_bool_decide as Hal.
  - apply elem_of_dom in Hal as [v Hv].
    rewrite lookup_insert_ne in Hv by done.
    split; [by rewrite lookup_insert_eq|]. split.
    + rewrite lookup_insert_ne by done. by rewrite Hv.
    + intros k Hk _. by rewrite lookup_insert_ne.
  - apply not_elem_of_dom in Hal. rewrite lookup_insert_ne in Hal by done.
    split; [by rewrite lookup_insert_ne, lookup_insert_eq|]. split.
    + by rewrite lookup_insert_eq, Hal.
    + intros k Hk Hk'. by rewrite !lookup_insert_ne.
Qed.

(** X25: the preamble file handed on is never a missing one, the default of
    the extension directory apart: when the configuration names none,
    or names one by a string, the arguments are built without an
    exception; the entry is then the default for no name or an empty
    one, else the named file if that exists, else the file of that name
    beside the configuration if that exists, else the default. *)
Theorem preamble_file_is_found_or_default
    (original modified : gmap string json) (f : filesystem) :
  (forall v, (modified ∪ original) !! "preamble-file" = Some v ->
     exists s, v = JStr s) ->
  exists a p,
    mod_args EXTENSION_DIR snippet_dir fd_isfile original modified f = inr a
    /\ a !! "preamble-file" = Some (JStr p)
    /\ (p = default_file \/ p ∈ files f)
    /\ ((modified ∪ original) !! "preamble-file" = None -> p = default_file)
    /\ (forall s, (modified ∪ original) !! "preamble-file" = Some (JStr s) ->
          (s = "" -> p = default_file)
          /\ (s <> "" -> s ∈ files f -> p = s)
          /\ (s <> "" -> s ∉ files f -> join snippet_dir s ∈ files f ->
               p = join snippet_dir s)
          /\ (s ∉ files f -> join snippet_dir s ∉ files f -> p = default_file)).
Proof.
  intros Hstr.
  destruct ((modified ∪ original) !! "preamble-file") as [v|] eqn:E.
  - destruct (Hstr v eq_refl) as [s ->].
    destruct (mod_args_of original modified f _
                (preamble_file_of_string _ f s E)) as (a & Ha & Hp & _).
    eexists a, _. split; [exact Ha|]. split; [exact Hp|].
    destruct (String.eqb s "") eqn:Es.
    + apply String.eqb_eq in Es. subst s. split; [by left|].
      split; [discriminate|]. intros s [= <-]. repeat split; done.
    + apply String.eqb_neq in Es.
      case_bool_decide as H1; [|case_bool_decide as H2].
      * split; [by right|]. split; [discriminate|]. intros s' [= <-].
        repeat split; done.
      * split; [by right|]. split; [discriminate|]. intros s' [= <-].
        repeat split; done.
      * split; [by left|]. split; [discriminate|]. intros s' [= <-].
        repeat split; done.
  - assert (Hp : preamble_file EXTENSION_DIR snippet_dir fd_isfile
                   (modified ∪ original) f = inr (JStr default_file))
      by (unfold preamble_file; by rewrite E).
    destruct (mod_args_of original modified f _ Hp) as (a & Ha & Hp' & _).
    eexists a, _. split; [exact Ha|]. split; [exact Hp'|].
    split; [by left|]. split; [done|]. discriminate.
Qed.

(** X26: the edit is made with the original arguments overwritten by the
    modified ones: apart from the preamble file and the alignment,
    every argument is the modified one where there is one and the
    original one otherwise; the alignment is the one given in this
    way, and [middle center] when neither gives one. *)
Theorem modified_arguments_win
    (original modified a : gmap string json) (f : filesystem) :
  mod_args EXTENSION_DIR snippet_dir fd_isfile original modified f = inr a ->
  (forall k, k <> "preamble-file" -> k <> "alignment" ->
     a !! k = match modified !! k with
              | Some v => Some v
              | None => original !! k
              end)
  /\ a !! "alignment"
     = Some (default (JStr "middle center")
               match modified !! "alignment" with
               | Some v => Some v
               | None => original !! "alignment"
               end)
  /\ is_Some (a !! "preamble-file").
Proof.
  intros Ha.
  destruct (preamble_file EXTENSION_DIR snippet_dir fd_isfile
              (modified ∪ original) f) as [e|p] eqn:Hp.
  - unfold mod_args in Ha. rewrite Hp in Ha. discriminate Ha.
  - destruct (mod_args_of original modified f p Hp) as (a' & Ha' & H1 & H2 & H3).
    rewrite Ha in Ha'. injection Ha' as <-.
    split; [|split].
    + intros k Hk Hk'. rewrite H3 by done. apply lookup_merged.
    + rewrite H2. by rewrite lookup_merged.
    + eauto.
Qed.

(** X27: a preamble file given as a float, a list or an object is not
    replaced by the default: building the arguments raises
    [TypeError]. *)
Theorem odd_preamble_file_raises
    (original modified : gmap string json) (f : filesystem) (v : json) :
  (modified ∪ original) !! "preamble-file" = Some v ->
  truthy v = true ->
  match v with
  | JFloat _ | JArr _ | JObj _ => True
  | _ => False
  end ->
  mod_args EXTENSION_DIR snippet_dir fd_isfile original modified f = inl TypeError.
Proof.
  intros E Ht Hv. unfold mod_args, preamble_file. rewrite E, Ht. cbn [negb].
  by destruct v.
Qed.

End Args.

(** ** [test_compatibility] *)

Section Test.

Variable os_name : string.
Variable run_process : list string -> filesystem -> filesystem.
Variable mkdtemp_name : filesystem -> string.
Variable getcwd : string.
Variable json_load : string -> filesystem -> result json.
Variable edit_and_compare : json -> string -> gmap string json -> M (bool * message).

(** X28: a test is skipped exactly when one of the four names of the case
    starts with an underscore, and then nothing is touched.  A test
    that is not skipped is the run on the three files of the case
    directory: it passes exactly when the run returns [True], fails
    with the message of a run that returns [False], and hands on the
    exception of a run that raises. *)
Theorem test_is_skipped_on_underscore
    (root inkscape_version textext_version converter test_case : string)
    (w : world) :
  let out := test_compatibility os_name run_process mkdtemp_name getcwd
               json_load edit_and_compare
               root inkscape_version textext_version converter test_case w in
  let marked := String.prefix "_" inkscape_version
                || String.prefix "_" textext_version
                || String.prefix "_" converter || String.prefix "_" test_case in
  let ran :=
    is_current_version_compatible os_name run_process mkdtemp_name getcwd
      json_load (bool * message) edit_and_compare
      (test_id_of inkscape_version textext_version converter test_case)
      (case_file root inkscape_version textext_version converter test_case "original.svg")
      (case_file root inkscape_version textext_version converter test_case "modified.svg")
      (case_file root inkscape_version textext_version converter test_case "config.json")
      converter w in
  ((exists reason, out.2 = Skipped reason) <-> marked = true)
  /\ (marked = true -> out.1 = w)
  /\ (marked = false ->
      out.1 = ran.1
      /\ (out.2 = Passed <-> exists msg, ran.2 = inr (true, msg))
      /\ (forall msg, out.2 = Failed msg <-> ran.2 = inr (false, msg))
      /\ (forall e, out.2 = Raised e <-> ran.2 = inl e)).
Proof.
  cbn zeta. unfold test_compatibility.
  fold (test_id_of inkscape_version textext_version converter test_case).
  fold (case_file root inkscape_version textext_version converter test_case "original.svg").
  fold (case_file root inkscape_version textext_version converter test_case "modified.svg").
  fold (case_file root inkscape_version textext_version converter test_case "config.json").
  destruct (String.prefix "_" inkscape_version || String.prefix "_" textext_version
            || String.prefix "_" converter || String.prefix "_" test_case).
  - cbn. split; [split; [done | by eexists]|]. split; [done | discriminate].
  - destruct (is_current_version_compatible _ _ _ _ _ _ _ _ _ _ _ _ w)
      as [w' [e|[[|] msg]]]; cbn [fst snd].
    + split; [split; [intros [? ?]; discriminate | discriminate]|].
      split; [discriminate|]. intros _. split; [done|].
      split; [split; [discriminate | intros [? ?]; discriminate]|].
      split; [intros ?; split; discriminate|].
      intros e'. split; congruence.
    + split; [split; [intros [? ?]; discriminate | discriminate]|].
      split; [discriminate|]. intros _. split; [done|].
      split; [split; [by eexists | done]|].
      split; [intros ?; split; discriminate|].
      intros e'. split; discriminate.
    + split; [split; [intros [? ?]; discriminate | discriminate]|].
      split; [discriminate|]. intros _. split; [done|].
      split; [split; [discriminate | intros [? ?]; discriminate]|].
      split; [intros ?; split; congruence|].
      intros e'. split; discriminate.
Qed.

End Test.

(** ** Instances *)

Lemma run_refused_witness :
  admitted "o.svg" "m.svg" "c.json" "pdf2svg" bare = false
  /\ is_current_version_compatible "posix" exporting tmp_name "/" load_null
       (bool * message) agree "t" "o.svg" "m.svg" "c.json" "pdf2svg" bare
     = (bare, inl AssertionError).
Proof.
  split; [reflexivity|]. by apply run_refused_at_entry.
Defined.

Lemma run_fails_before_rendering_witness :
  admitted "o.svg" "m.svg" "c.json" "pdf2svg" case_world = true
  /\ (is_current_version_compatible "posix" exporting tmp_name "/" load_null
        (bool * message) agree "t" "o.svg" "m.svg" "c.json" "pdf2svg"
        case_world).2
     = inl TypeError.
Proof.
  assert (Ha : admitted "o.svg" "m.svg" "c.json" "pdf2svg" case_world = true)
    by (vm_compute; reflexivity).
  split; [exact Ha|].
  refine (proj1 (run_fails_before_rendering "posix" exporting tmp_name "/"
                   load_null (bool * message) agree "t" "o.svg" "m.svg" "c.json"
                   "pdf2svg" case_world TypeError Ha _)).
  reflexivity.
Defined.

Lemma preamble_file_witness :
  exists a p,
    mod_args "/ext" "/cases" no_fd original_args modified_args (fs case_world)
    = inr a
    /\ a !! "preamble-file" = Some (JStr p)
    /\ (p = extension_dir_preamble_file "/ext" \/ p ∈ files (fs case_world)).
Proof.
  destruct (preamble_file_is_found_or_default "/ext" "/cases" no_fd
              original_args modified_args (fs case_world))
    as (a & p & Ha & Hp & Hor & _).
  - intros v Hv. vm_compute in Hv. injection Hv as <-. by eexists.
  - by exists a, p.
Defined.

Lemma modified_arguments_witness :
  exists a,
    mod_args "/ext" "/cases" no_fd original_args modified_args (fs case_world)
    = inr a
    /\ a !! "text" = Some (JStr "y")
    /\ a !! "alignment" = Some (JStr "middle center").
Proof.
  destruct (mod_args "/ext" "/cases" no_fd original_args modified_args
              (fs case_world)) as [e|a] eqn:E.
  - vm_compute in E. discriminate E.
  - destruct (modified_arguments_win "/ext" "/cases" no_fd original_args
                modified_args a (fs case_world) E) as (Hk & Hal & _).
    exists a. split; [reflexivity|]. split.
    + by rewrite Hk.
    + exact Hal.
Defined.

Lemma odd_preamble_file_witness :
  mod_args "/ext" "/cases" no_fd list_args ∅ (fs case_world) = inl TypeError.
Proof.
  apply (odd_preamble_file_raises "/ext" "/cases" no_fd list_args ∅
           (fs case_world) (JArr [JStr "pre.tex"])); [reflexivity..|exact I].
Defined.

End RunFacts.

(* ===================================================================== *)
(** * Properties of the first rendering *)
(* ===================================================================== *)

Module RenderingFacts.

Import Py Harness Run FirstRendering.

Lemma match_area (X : Type) (s : string) (x y z : X) :
  match s with
  | "drawing" => x
  | "document" => y
  | _ => z
  end
  = if String.eqb s "drawing" then x
    else if String.eqb s "document" then y else z.
Proof.
  repeat (destruct s as [|[[] [] [] [] [] [] [] []] s]; try reflexivity).
Qed.

(** The options of an export, part by part. *)
Lemma export_options_inv (kw : gmap string json) (options : list string) :
  export_options kw = inr options ->
  exists o1 o2 o3,
    options = (o1 ++ o2 ++ o3)%list
    /\ (if truthy (kw_dpi kw)
        then exists d, format_d (kw_dpi kw) = inr d /\ o1 = ["--export-dpi=" +:+ d]
        else o1 = [])
    /\ (if truthy (kw_height kw)
        then exists d, format_d (kw_height kw) = inr d
                       /\ o2 = ["--export-height=" +:+ d]
        else o2 = [])
    /\ (o3 = [] \/ o3 = ["--export-area-drawing"]).
Proof.
  unfold export_options.
  set (p1 := if truthy (kw_dpi kw) then _ else _).
  set (p2 := if truthy (kw_height kw) then _ else _).
  assert (H1 : forall o1, p1 = inr o1 ->
            if truthy (kw_dpi kw)
            then exists d, format_d (kw_dpi kw) = inr d /\ o1 = ["--export-dpi=" +:+ d]
            else o1 = []).
  { intros o1. subst p1. destruct (truthy (kw_dpi kw)).
    - destruct (format_d (kw_dpi kw)) as [e|d]; cbn; [discriminate|].
      intros [= <-]. by exists d.
    - by intros [= <-]. }
  assert (H2 : forall o2, p2 = inr o2 ->
            if truthy (kw_height kw)
            then exists d, format_d (kw_height kw) = inr d
                           /\ o2 = ["--export-height=" +:+ d]
            else o2 = []).
  { intros o2. subst p2. destruct (truthy (kw_height kw)).
    - destruct (format_d (kw_height kw)) as [e|d]; cbn; [discriminate|].
      intros [= <-]. by exists d.
    - by intros [= <-]. }
  destruct p1 as [e|o1]; cbn [bind]; [discriminate|].
  destruct p2 as [e|o2]; cbn [bind]; [discriminate|].
  specialize (H1 o1 eq_refl). specialize (H2 o2 eq_refl).
  destruct (kw_render_area kw) as [| | | |s| |]; try discriminate.
  rewrite match_area.
  destruct (String.eqb s "drawing").
  - intros [= <-]. exists o1, o2, ["--export-area-drawing"]. eauto.
  - destruct (String.eqb s "document"); [|discriminate].
    intros [= <-]. exists o1, o2, []. rewrite app_nil_r. eauto.
Qed.


Lemma has_option_app (name : string) (a b : list string) :
  has_option name (a ++ b) = has_option name a || has_option name b.
Proof. apply existsb_app. Qed.

Lemma prefix_app (k d : string) : String.prefix k (k +:+ d) = true.
Proof.
  induction k as [|c k IH]; [by destruct d|].
  change (String c k +:+ d) with (String c (k +:+ d)). cbn [String.prefix].
  by destruct (ascii_dec c c).
Qed.

Lemma has_option_single (name d : string) :
  has_option name [name +:+ d] = true.
Proof. unfold has_option. cbn [existsb]. by rewrite prefix_app. Qed.

(** The size options of a dictionary with one size entry. *)
Lemma export_options_one_size (key other : string) (v area : json)
    (options : list string) :
  (key = "dpi" /\ other = "height") \/ (key = "height" /\ other = "dpi") ->
  export_options (keywords key v area) = inr options ->
  has_option ("--export-" +:+ other +:+ "=") options = false
  /\ has_option ("--export-" +:+ key +:+ "=") options = truthy v
  /\ (truthy v = true ->
      exists d, format_d v = inr d
                /\ ("--export-" +:+ key +:+ "=" +:+ d) ∈ options).
Proof.
  intros Hk H. apply export_options_inv in H as (o1 & o2 & o3 & -> & H1 & H2 & H3).
  assert (Ho3 : forall name, name = "--export-dpi=" \/ name = "--export-height=" ->
                  has_option name o3 = false).
  { intros name [-> | ->]; destruct H3 as [-> | ->]; reflexivity. }
  destruct Hk as [[-> ->] | [-> ->]].
  - assert (kw_dpi (keywords "dpi" v area) = v) as Ed by
      (unfold kw_dpi, keywords; by simplify_map_eq).
    assert (kw_height (keywords "dpi" v area) = JNull) as Eh by
      (unfold kw_height, keywords; by simplify_map_eq).
    rewrite Ed in H1. rewrite Eh in H2. cbn [truthy] in H2. subst o2.
    rewrite !has_option_app, !Ho3 by auto. cbn [app].
    destruct (truthy v).
    + destruct H1 as (d & Hd & ->).
      split; [reflexivity|].
      split.
      { change (has_option "--export-dpi=" ["--export-dpi=" +:+ d] || false = true).
        by rewrite has_option_single. }
      intros _. exists d. split; [exact Hd|]. apply elem_of_app. left.
      by apply elem_of_cons; left.
    + subst o1. split; [reflexivity|]. split; [reflexivity|]. discriminate.
  - assert (kw_height (keywords "height" v area) = v) as Eh by
      (unfold kw_height, keywords; by simplify_map_eq).
    assert (kw_dpi (keywords "height" v area) = JNull) as Ed by
      (unfold kw_dpi, keywords; by simplify_map_eq).
    rewrite Ed in H1. rewrite Eh in H2. cbn [truthy] in H1. subst o1.
    rewrite !has_option_app, !Ho3 by auto. cbn [app].
    destruct (truthy v).
    + destruct H2 as (d & Hd & ->).
      split; [reflexivity|].
      split.
      { change (has_option "--export-height=" ["--export-height=" +:+ d] || false = true).
        by rewrite has_option_single. }
      intros _. exists d. split; [exact Hd|]. apply elem_of_app. left.
      by apply elem_of_cons; left.
    + subst o2. split; [reflexivity|]. split; [reflexivity|]. discriminate.
Qed.

(** The dictionary selected for a block with the flag. *)
Lemma render_options_keywords (m : gmap string json) (preserved : json) :
  m !! "scale-is-preserved" = Some preserved ->
  render_options (JObj m)
  = if truthy preserved then
      if bool_decide ("height" ∈ dom m) then inl AssertionError
      else inr (keywords "dpi" (default (JInt 90) (m !! "dpi"))
                         (default (JStr "document") (m !! "render-area")))
    else
      if bool_decide ("dpi" ∈ dom m) then inl AssertionError
      else inr (keywords "height" (default (JInt 100) (m !! "height"))
                         (default (JStr "document") (m !! "render-area"))).
Proof.
  intros Hflag. unfold render_options.
  rewrite (HarnessFacts.truthy_dict _ _ _ Hflag). cbn [getitem].
  rewrite Hflag. unfold ret at 1. cbn [bind].
  destruct (truthy preserved); destruct (bool_decide _); reflexivity.
Qed.

Section Run.

Variable os_name : string.
Variable run_process : list string -> filesystem -> filesystem.
Variable mkdtemp_name : filesystem -> string.
Variable getcwd : string.
Variable json_load : string -> filesystem -> result json.
Variable A : Type.
Variable edit_and_compare : json -> string -> gmap string json -> M A.

Abbreviation run :=
  (is_current_version_compatible os_name run_process mkdtemp_name getcwd
     json_load A edit_and_compare).

(** An export whose drawing exists starts one process and then looks
    for the picture. *)
Lemma svg_to_png_started (svg png : string) (kw : gmap string json)
    (options : list string) (w : world) :
  svg ∈ files (fs w) ->
  export_options kw = inr options ->
  svg_to_png os_name run_process svg png kw w
  = let argv := export_command os_name svg png options in
    let w1 := {| fs := run_process argv (fs w); trace := (trace w ++ [argv])%list |} in
    (w1, assert (bool_decide (png ∈ files (fs w1)))).
Proof.
  intros Hs Ho. unfold svg_to_png, mbind, isfile, massert, lift, call.
  rewrite (bool_decide_eq_true_2 _ Hs). cbn [assert ret]. rewrite Ho.
  reflexivity.
Qed.

(** An admitted run whose render block is accepted: the first call of
    [svg_to_png], the rest of the run, and the end of the [with]
    block. *)
Lemma run_admitted
    (test_id svg_original svg_modified json_config converter : string)
    (w : world) :
  admitted svg_original svg_modified json_config converter w = true ->
  run test_id svg_original svg_modified json_config converter w
  = let d := mkdtemp_name (fs w) in
    let ew := entered_world mkdtemp_name w in
    let b :=
      match render_plan json_load json_config (fs ew) with
      | inl e => (ew, inl e)
      | inr o =>
          match json_load json_config (fs ew) with
          | inl e => (ew, inl e)
          | inr config =>
              match svg_to_png os_name run_process svg_modified
                      (join d "1.png") o ew with
              | (w1, inl e) => (w1, inl e)
              | (w1, inr _) => edit_and_compare config d o w1
              end
          end
      end in
    let c := rmtree d (fs b.1) in
    ({| fs := c.1; trace := trace b.1 |},
     match c.2 with
     | inl e => inl e
     | inr _ => b.2
     end).
Proof.
  unfold admitted, is_current_version_compatible, mbind, isfile, massert,
    lift, assert. cbn -[TempDirectory.with_ svg_to_png join].
  destruct (bool_decide (svg_original ∈ _));
    cbn -[TempDirectory.with_ svg_to_png join]; [|discriminate].
  destruct (bool_decide (svg_modified ∈ _));
    cbn -[TempDirectory.with_ svg_to_png join]; [|discriminate].
  destruct (bool_decide (json_config ∈ _));
    cbn -[TempDirectory.with_ svg_to_png join]; [|discriminate].
  destruct (bool_decide (converter ∈ _));
    cbn -[TempDirectory.with_ svg_to_png join]; [|discriminate].
  intros _. rewrite HarnessMore.with_unfold. cbn zeta.
  unfold render_plan, tempdir. cbn [TempDirectory.name TempDirectory.__name default].
  destruct (json_load _ _) as [e0|config]; cbn [bind]; [reflexivity|].
  destruct (getitem config "check") as [e0|check]; cbn [bind]; [reflexivity|].
  destruct (getitem check "render") as [e0|cr]; cbn [bind]; [reflexivity|].
  destruct (render_options cr) as [e0|o]; reflexivity.
Qed.

Lemma svg_to_png_refused (svg png : string) (kw : gmap string json)
    (e : exn) (w : world) :
  svg ∈ files (fs w) ->
  export_options kw = inl e ->
  svg_to_png os_name run_process svg png kw w = (w, inl e).
Proof.
  intros Hs Ho. unfold svg_to_png, mbind, isfile, massert, lift, call.
  rewrite (bool_decide_eq_true_2 _ Hs). cbn [assert ret]. by rewrite Ho.
Qed.

Lemma rmtree_entered (w : world) :
  (rmtree (mkdtemp_name (fs w)) (fs (entered_world mkdtemp_name w))).2 = inr tt.
Proof.
  unfold rmtree, entered_world. cbn [fs dirs].
  by rewrite bool_decide_eq_true_2 by set_solver.
Qed.

(** C6, amended: for a render block with the flag [scale-is-preserved],
    in a run that has passed the entry checks.  When the flag is true
    and the block has ['height'], or the flag is false and the block
    has ['dpi'], the run ends with [AssertionError] and no process has
    been started.  Otherwise [svg_to_png] gets [dpi] (90 unless the
    block has the key), respectively [height] (100 unless the block has
    the key), and the render area; the first process of the run is
    Inkscape with the options made of them.  These options never set
    the other quantity, and they set the selected one exactly when its
    value counts as true: with the default, [--export-dpi=90]
    respectively [--export-height=100]; with a value such as [null] or
    [0], no size option at all. *)
Theorem first_rendering_follows_the_flag
    (test_id svg_original svg_modified json_config converter : string)
    (config : json) (m : gmap string json) (preserved : json) (w : world) :
  admitted svg_original svg_modified json_config converter w = true ->
  json_load json_config (fs (entered_world mkdtemp_name w)) = inr config ->
  (let* check := getitem config "check" in getitem check "render")
  = inr (JObj m) ->
  m !! "scale-is-preserved" = Some preserved ->
  (forall c d o w0, trace w0 `prefix_of` trace (edit_and_compare c d o w0).1) ->
  let out := run test_id svg_original svg_modified json_config converter w in
  let key := if truthy preserved then "dpi" else "height" in
  let other := if truthy preserved then "height" else "dpi" in
  let v := default (JInt (if truthy preserved then 90 else 100)) (m !! key) in
  let o := keywords key v (default (JStr "document") (m !! "render-area")) in
  let png1 := join (mkdtemp_name (fs w)) "1.png" in
  (other ∈ dom m ->
     render_options (JObj m) = inl AssertionError
     /\ out.2 = inl AssertionError /\ trace out.1 = trace w)
  /\ (other ∉ dom m ->
      render_options (JObj m) = inr o
      /\ (forall e, export_options o = inl e ->
            out.2 = inl e /\ trace out.1 = trace w)
      /\ (forall options, export_options o = inr options ->
            (trace w ++ [export_command os_name svg_modified png1 options])%list
              `prefix_of` trace out.1
            /\ has_option ("--export-" +:+ other +:+ "=") options = false
            /\ has_option ("--export-" +:+ key +:+ "=") options = truthy v
            /\ (truthy v = true ->
                exists d, format_d v = inr d
                          /\ ("--export-" +:+ key +:+ "=" +:+ d) ∈ options)
            /\ (m !! key = None ->
                ("--export-" +:+ key +:+ "="
                   +:+ (if truthy preserved then "90" else "100")) ∈ options))).
Proof.
  intros Ha Hload Hblock Hflag Hext.
  assert (Hsvg : svg_modified ∈ files (fs (entered_world mkdtemp_name w))).
  { unfold admitted in Ha. apply andb_true_iff in Ha as [Ha _].
    apply andb_true_iff in Ha as [Ha _]. apply andb_true_iff in Ha as [_ Ha].
    by apply bool_decide_eq_true in Ha. }
  assert (Hplan : render_plan json_load json_config
                    (fs (entered_world mkdtemp_name w))
                  = render_options (JObj m)).
  { unfold render_plan. rewrite Hload. cbn [bind].
    destruct (getitem config "check") as [e|check]; cbn [bind] in Hblock |- *;
      [discriminate Hblock|]. by rewrite Hblock. }
  rewrite (run_admitted _ _ _ _ _ _ Ha). cbn zeta. rewrite Hplan, Hload.
  pose proof (rmtree_entered w) as Hrm.
  assert (Hrefused : forall e : exn,
    let b : world * result A := (entered_world mkdtemp_name w, inl e) in
    let c := rmtree (mkdtemp_name (fs w)) (fs b.1) in
    match c.2 with inl e' => inl e' | inr _ => b.2 end = inl e
    /\ trace b.1 = trace w).
  { intros e. cbn zeta. cbn [fst snd]. by rewrite Hrm. }
  assert (Hgo : forall (key other : string) (v : json),
    (key = "dpi" /\ other = "height") \/ (key = "height" /\ other = "dpi") ->
    let o := keywords key v (default (JStr "document") (m !! "render-area")) in
    let png1 := join (mkdtemp_name (fs w)) "1.png" in
    let b :=
      match svg_to_png os_name run_process svg_modified png1 o
              (entered_world mkdtemp_name w) with
      | (w1, inl e) => (w1, inl e)
      | (w1, inr _) => edit_and_compare config (mkdtemp_name (fs w)) o w1
      end in
    let c := rmtree (mkdtemp_name (fs w)) (fs b.1) in
    let out := ({| fs := c.1; trace := trace b.1 |},
                match c.2 with inl e => inl e | inr _ => b.2 end) in
    (forall e, export_options o = inl e ->
       out.2 = inl e /\ trace out.1 = trace w)
    /\ (forall options, export_options o = inr options ->
          (trace w ++ [export_command os_name svg_modified png1 options])%list
            `prefix_of` trace out.1
          /\ has_option ("--export-" +:+ other +:+ "=") options = false
          /\ has_option ("--export-" +:+ key +:+ "=") options = truthy v
          /\ (truthy v = true ->
              exists d, format_d v = inr d
                        /\ ("--export-" +:+ key +:+ "=" +:+ d) ∈ options))).
  { intros key other v Hk. cbn zeta. split.
    - intros e He. rewrite (svg_to_png_refused _ _ _ e _ Hsvg He).
      apply (Hrefused e).
    - intros options Ho. split; [|by apply (export_options_one_size _ _ _ _ _ Hk Ho)].
      rewrite (svg_to_png_started _ _ _ options _ Hsvg Ho). cbn zeta.
      cbn [fst trace].
      destruct (assert _) as [e|u]; cbn [fst trace].
      + done.
      + etrans; [|apply Hext]. done. }
  rewrite (render_options_keywords m preserved Hflag).
  destruct (truthy preserved) eqn:Ht; cbn zeta.
  - case_bool_decide as Hin.
    + split; [|done]. intros _. split; [reflexivity|]. apply (Hrefused AssertionError).
    + split; [done|]. intros _. split; [reflexivity|].
      destruct (Hgo "dpi" "height" (default (JInt 90) (m !! "dpi")))
        as [He Ho]; [by left|].
      split; [exact He|]. intros options Hopts.
      destruct (Ho options Hopts) as (P1 & P2 & P3 & P4).
      repeat (split; [assumption|]). intros Hnone.
      rewrite Hnone in P4. destruct (P4 eq_refl) as (d & Hd & Hel).
      injection Hd as <-. exact Hel.
  - case_bool_decide as Hin.
    + split; [|done]. intros _. split; [reflexivity|]. apply (Hrefused AssertionError).
    + split; [done|]. intros _. split; [reflexivity|].
      destruct (Hgo "height" "dpi" (default (JInt 100) (m !! "height")))
        as [He Ho]; [by right|].
      split; [exact He|]. intros options Hopts.
      destruct (Ho options Hopts) as (P1 & P2 & P3 & P4).
      repeat (split; [assumption|]). intros Hnone.
      rewrite Hnone in P4. destruct (P4 eq_refl) as (d & Hd & Hel).
      injection Hd as <-. exact Hel.
Qed.

End Run.

(** C6, as stated, fails: a block with the flag true and ['dpi': null]
    passes the assertion, and the run starts Inkscape without any dpi
    option: [dpi] is [None] in [svg_to_png]. *)
Lemma null_dpi_renders_without_dpi :
  block_null_dpi !! "scale-is-preserved" = Some (JBool true)
  /\ block_null_dpi !! "height" = None
  /\ render_options (JObj block_null_dpi)
     = inr (keywords "dpi" JNull (JStr "document"))
  /\ let out :=
       is_current_version_compatible "posix" exporting tmp_name "/"
         (load (config_of block_null_dpi)) (bool * message) agree
         "id" "o.svg" "m.svg" "c.json" "pdf2svg" case_world in
     out.2 = inr (true, DiffPixels 0)
     /\ trace out.1
        = [["inkscape"; "--export-type=png";
            "--export-filename=/tmp/tmp0/1.png"; "m.svg"]]
     /\ Forall (fun argv => has_option "--export-dpi=" argv = false)
               (trace out.1).
Proof.
  split; [reflexivity|]. split; [reflexivity|]. split; [reflexivity|].
  cbn zeta.
  assert (E : is_current_version_compatible "posix" exporting tmp_name "/"
         (load (config_of block_null_dpi)) (bool * message) agree
         "id" "o.svg" "m.svg" "c.json" "pdf2svg" case_world
         = (({| fs := {| dirs := ∅; files := {["o.svg"; "m.svg"; "c.json"]} |};
               trace := [["inkscape"; "--export-type=png";
                          "--export-filename=/tmp/tmp0/1.png"; "m.svg"]] |}),
            inr (true, DiffPixels 0))).
  { vm_compute. reflexivity. }
  rewrite E. cbn [fst snd trace]. split; [reflexivity|]. split; [reflexivity|].
  repeat constructor.
Qed.

Lemma first_rendering_witness :
  let out :=
    is_current_version_compatible "posix" exporting tmp_name "/"
      (load (config_of block_flag_only)) (bool * message) agree
      "id" "o.svg" "m.svg" "c.json" "pdf2svg" case_world in
  ([] ++ [export_command "posix" "m.svg" "/tmp/tmp0/1.png" ["--export-dpi=90"]])%list
    `prefix_of` trace out.1.
Proof.
  destruct (first_rendering_follows_the_flag "posix" exporting tmp_name "/"
              (load (config_of block_flag_only)) (bool * message) agree
              "id" "o.svg" "m.svg" "c.json" "pdf2svg"
              (config_of block_flag_only) block_flag_only (JBool true) case_world)
    as [_ H].
  - apply (bool_decide_unpack _). by vm_compute.
  - reflexivity.
  - reflexivity.
  - reflexivity.
  - intros c d o w0. reflexivity.
  - destruct H as (_ & _ & H).
    + intros Hin. apply elem_of_dom in Hin as [x Hx]. vm_compute in Hx.
      discriminate Hx.
    + destruct (H ["--export-dpi=90"]) as [P _]; [vm_compute; reflexivity|].
      exact P.
Defined.

End RenderingFacts.
